(** * Multi-provider event orchestration (calendarClient + EventManager)

    A shallow embedding of [lib/calendarClient.ts], [lib/events/EventManager.ts]
    and the token/availability part of [ZoomVideoApiAdapter.ts], followed by the
    properties of the orchestration layer.

    Conventions of the embedding:
    - a JavaScript promise is its settlement, [Resolved v] or [Rejected r]; an
      exception thrown in an [async] function or a [then] callback is a
      rejection;
    - code that mutates an object and awaits is a function from the object's
      state to its new state and a settlement ([SP]);
    - everything the code obtains from outside (provider responses, the clock,
      the database, the mailer, modules that are not part of these sources) is a
      field of [Env]. *)

From Stdlib Require Import String List ZArith Bool Lia.
Import ListNotations.

Local Open Scope string_scope.
Local Open Scope list_scope.

(* ===================================================================== *)
(** ** JavaScript values, strings and promises *)
(* ===================================================================== *)

Module Js.

(** An optional field of type [T | null]: absent, [null] or a value. *)
Inductive Nullable (A : Type) : Type :=
| Undefined
| Null
| Defined (a : A).
Arguments Undefined {A}.
Arguments Null {A}.
Arguments Defined {A} a.

(** [x !== undefined] *)
Definition notUndefined {A} (x : Nullable A) : bool :=
  match x with Undefined => false | _ => true end.

(** [x ?? d] *)
Definition coalesce {A} (x : Nullable A) (d : A) : A :=
  match x with Defined a => a | _ => d end.

(** Truthiness of a string: every string but the empty one. *)
Definition truthyString (s : string) : bool :=
  negb (String.eqb s "").

(** Truthiness of an optional string field. *)
Definition truthy (x : Nullable string) : bool :=
  match x with Defined s => truthyString s | _ => false end.

(** Truthiness of a [boolean | null]. *)
Definition truthyFlag (b : option bool) : bool :=
  match b with Some true => true | _ => false end.

(** [s.includes(sub)] *)
Definition includes (s sub : string) : bool :=
  match String.index 0 sub s with Some _ => true | None => false end.

(** [s.endsWith(suffix)] *)
Definition endsWith (s suffix : string) : bool :=
  let n := String.length s in
  let k := String.length suffix in
  Nat.leb k n && String.eqb (String.substring (n - k) k s) suffix.

(** [s.replace(pat, by)] with a string pattern: the first occurrence only. *)
Definition replace (s pat by_ : string) : string :=
  match String.index 0 pat s with
  | Some i =>
      String.append (String.substring 0 i s)
        (String.append by_
           (String.substring (i + String.length pat)
              (String.length s - (i + String.length pat)) s))
  | None => s
  end.

(** What a promise is rejected with (or a function throws). *)
Inductive Reason : Type :=
| JsError (message : string)
| JsTypeError (message : string)
| JsString (s : string)
| JsEmptyArray
| JsNull.

Inductive Promise (A : Type) : Type :=
| Resolved (a : A)
| Rejected (r : Reason).
Arguments Resolved {A} a.
Arguments Rejected {A} r.

Definition isResolved {A} (p : Promise A) : bool :=
  match p with Resolved _ => true | Rejected _ => false end.

(** [p.then(f)] *)
Definition andThen {A B} (p : Promise A) (f : A -> Promise B) : Promise B :=
  match p with Resolved a => f a | Rejected r => Rejected r end.

(** [Promise.all(ps)]: the values in order, or a rejection as soon as one of
    the promises rejects. Settlements carry no time, so the rejection kept is
    that of the first rejected promise in list order. *)
Fixpoint all {A} (ps : list (Promise A)) : Promise (list A) :=
  match ps with
  | [] => Resolved []
  | p :: rest =>
      match p, all rest with
      | Resolved a, Resolved l => Resolved (a :: l)
      | Rejected r, _ => Rejected r
      | Resolved _, Rejected r => Rejected r
      end
  end.

(** State-passing computations that settle: mutation plus [await]. *)
Definition SP (S A : Type) : Type := S -> S * Promise A.

Definition ret {S A} (a : A) : SP S A := fun s => (s, Resolved a).

Definition reject {S A} (r : Reason) : SP S A := fun s => (s, Rejected r).

Definition bind {S A B} (m : SP S A) (k : A -> SP S B) : SP S B :=
  fun s =>
    match m s with
    | (s', Resolved a) => k a s'
    | (s', Rejected r) => (s', Rejected r)
    end.

Definition catch {S A} (m : SP S A) (h : Reason -> SP S A) : SP S A :=
  fun s =>
    match m s with
    | (s', Resolved a) => (s', Resolved a)
    | (s', Rejected r) => h r s'
    end.

Definition await {S A} (p : Promise A) : SP S A := fun s => (s, p).

Definition gets {S A} (f : S -> A) : SP S A := fun s => (s, Resolved (f s)).

Definition modify {S} (f : S -> S) : SP S unit := fun s => (f s, Resolved tt).

End Js.

Import Js.

Declare Scope sp_scope.
Delimit Scope sp_scope with sp.
Notation "x <- m ;; k" := (bind m (fun x => k))
  (at level 61, m at next level, right associativity) : sp_scope.
Notation "m ;;; k" := (bind m (fun _ => k))
  (at level 61, right associativity) : sp_scope.

(* ===================================================================== *)
(** ** Data model *)
(* ===================================================================== *)

(** [Person] *)
Record Person : Type := {
  person_name : string;
  person_email : string;
  person_timeZone : string }.

(** [calendar_v3.Schema$CreateConferenceRequest]; the two fields the code
    never touches are kept as opaque payloads. *)
Record CreateConferenceRequest : Type := {
  requestId : option string;
  conferenceSolutionKey : option string;
  status : option string }.

Record ConferenceData : Type := {
  createRequest : CreateConferenceRequest }.

Record EntryPoint : Type := {
  entryPointType : option string;
  uri : option string;
  label : option string }.

Record AdditionInformation : Type := {
  ai_conferenceData : option ConferenceData;
  ai_entryPoints : option (list EntryPoint);
  ai_hangoutLink : option string }.

(** [VideoCallData] of lib/videoClient (an interface: type, id, password, url). *)
Record VideoCallData : Type := {
  vcd_type : string;
  vcd_id : string;
  vcd_password : string;
  vcd_url : string }.

Record Team : Type := {
  team_name : string;
  team_members : list string }.

(** [CalendarEvent]. The [language] translation function takes no part in
    orchestration and is left out. *)
Record CalendarEvent : Type := {
  ce_type : string;
  title : string;
  startTime : string;
  endTime : string;
  description : Nullable string;
  team : option Team;
  location : Nullable string;
  organizer : Person;
  attendees : list Person;
  conferenceData : option ConferenceData;
  additionInformation : option AdditionInformation;
  ce_uid : Nullable string;
  videoCallData : option VideoCallData }.

Definition set_location (l : Nullable string) (e : CalendarEvent) : CalendarEvent :=
  {| ce_type := ce_type e; title := title e; startTime := startTime e;
     endTime := endTime e; description := description e; team := team e;
     location := l; organizer := organizer e; attendees := attendees e;
     conferenceData := conferenceData e;
     additionInformation := additionInformation e; ce_uid := ce_uid e;
     videoCallData := videoCallData e |}.

Definition set_conferenceData (c : option ConferenceData) (e : CalendarEvent)
  : CalendarEvent :=
  {| ce_type := ce_type e; title := title e; startTime := startTime e;
     endTime := endTime e; description := description e; team := team e;
     location := location e; organizer := organizer e; attendees := attendees e;
     conferenceData := c;
     additionInformation := additionInformation e; ce_uid := ce_uid e;
     videoCallData := videoCallData e |}.

Definition set_additionInformation (a : option AdditionInformation)
  (e : CalendarEvent) : CalendarEvent :=
  {| ce_type := ce_type e; title := title e; startTime := startTime e;
     endTime := endTime e; description := description e; team := team e;
     location := location e; organizer := organizer e; attendees := attendees e;
     conferenceData := conferenceData e;
     additionInformation := a; ce_uid := ce_uid e;
     videoCallData := videoCallData e |}.

Definition set_videoCallData (v : option VideoCallData) (e : CalendarEvent)
  : CalendarEvent :=
  {| ce_type := ce_type e; title := title e; startTime := startTime e;
     endTime := endTime e; description := description e; team := team e;
     location := location e; organizer := organizer e; attendees := attendees e;
     conferenceData := conferenceData e;
     additionInformation := additionInformation e; ce_uid := ce_uid e;
     videoCallData := v |}.

(** The OAuth key blob of a credential, as the three auth adapters read it:
    Google and Office365 keep [expiry_date], Zoom keeps [expires_in]. The same
    record is the body of a token-endpoint response. *)
Record OAuthKey : Type := {
  access_token : string;
  refresh_token : string;
  expiry_date : Z;
  expires_in : Z }.

(** [Credential] (Prisma): id, type and key. *)
Record Credential : Type := {
  cred_id : Z;
  cred_type : string;
  cred_key : OAuthKey }.

(** [Event] of EventManager: what a provider returns for a created event. The
    numeric Zoom id is kept in its [toString()] form. *)
Record Event : Type := {
  ev_name : string;
  ev_id : string;
  disableConfirmationEmail : option bool;
  ev_conferenceData : option ConferenceData;
  ev_entryPoints : option (list EntryPoint);
  ev_hangoutLink : option string }.

(** What an adapter's [updateEvent] resolves with ([Promise<any>]): the
    provider's event data (Google, possibly [undefined]) or the raw response
    text (Office365). *)
Inductive UpdatePayload : Type :=
| UpdatedData (e : Event)
| UpdatedText (text : string)
| UpdatedNothing.

Definition truthyPayload (p : UpdatePayload) : bool :=
  match p with
  | UpdatedData _ => true
  | UpdatedText t => truthyString t
  | UpdatedNothing => false
  end.

(** The calendar event object of the running request; every [EventResult]
    points back at it ([originalEvent]) instead of copying it. *)
Inductive ObjRef : Type := RequestEvent.

(** [EventResult] *)
Record EventResult : Type := {
  er_type : string;
  success : bool;
  er_uid : string;
  createdEvent : option Event;
  updatedEvent : option UpdatePayload;
  originalEvent : ObjRef;
  er_videoCallData : option VideoCallData }.

Definition set_er_videoCallData (v : option VideoCallData) (r : EventResult)
  : EventResult :=
  {| er_type := er_type r; success := success r; er_uid := er_uid r;
     createdEvent := createdEvent r; updatedEvent := updatedEvent r;
     originalEvent := originalEvent r; er_videoCallData := v |}.

(** [PartialReference] *)
Record PartialReference : Type := {
  ref_id : option Z;
  ref_type : string;
  ref_uid : string;
  meetingId : Nullable string;
  meetingPassword : Nullable string;
  meetingUrl : Nullable string }.

(** [PartialBooking] *)
Record PartialBooking : Type := {
  booking_id : Z;
  references : list PartialReference }.

(** [CreateUpdateResult] *)
Record CreateUpdateResult : Type := {
  results : list EventResult;
  referencesToCreate : list PartialReference }.

(** [IntegrationCalendar] (also used for a [SelectedCalendar]). *)
Record IntegrationCalendar : Type := {
  integration : option string;
  externalId : option string;
  primary : option bool;
  cal_name : option string }.

(** [BufferedBusyTime] *)
Record BufferedBusyTime : Type := {
  busy_start : string;
  busy_end : string }.

(* ===================================================================== *)
(** ** The world outside the core *)
(* ===================================================================== *)

(** A [fetch] response: [ok], [statusText] and the settlement of reading its
    body ([json()] or [text()]). *)
Record Response (B : Type) : Type := {
  ok : bool;
  statusText : string;
  body : Promise B }.
Arguments ok {B} r.
Arguments statusText {B} r.
Arguments body {B} r.

(** A node-style callback [(err, res)]: an error, or a response whose [data]
    may be missing. *)
Inductive Callback (A : Type) : Type :=
| CbError (err : Reason)
| CbData (data : option A).
Arguments CbError {A} err.
Arguments CbData {A} data.

(** The adapter capability set, [CalendarApiAdapter]. Every operation may
    refresh (and so rewrite) the credential's key. *)
Module Adapter.
Record t : Type := {
  (** the credential the adapter closes over *)
  self : Credential;
  createEvent : CalendarEvent -> SP OAuthKey Event;
  updateEvent : string -> CalendarEvent -> SP OAuthKey UpdatePayload;
  deleteEvent : string -> SP OAuthKey unit;
  getAvailability :
    string -> string -> list IntegrationCalendar ->
    SP OAuthKey (list BufferedBusyTime);
  listCalendars : SP OAuthKey (list IntegrationCalendar) }.
End Adapter.

(** An entry of Google's calendar list. *)
Record CalendarListEntry : Type := {
  gc_id : Nullable string;
  summary : Nullable string;
  gc_primary : Nullable bool }.

(** The googleapis SDK, keyed by the credentials the auth client holds. *)
Record GoogleApi : Type := {
  isTokenExpiring : OAuthKey -> bool;
  refreshToken : string -> Promise (option OAuthKey);
  events_insert : OAuthKey -> CalendarEvent -> Callback Event;
  events_update : OAuthKey -> string -> CalendarEvent -> Callback Event;
  events_delete : OAuthKey -> string -> Callback unit;
  calendarList_list : OAuthKey -> Promise (option (list CalendarListEntry));
  freebusy_query :
    OAuthKey -> string -> string -> list (option string) ->
    Promise (list (list BufferedBusyTime)) }.

(** A calendar of the Graph API ([OfficeCalendar]). *)
Record OfficeCalendar : Type := {
  oc_id : Nullable string;
  oc_name : Nullable string;
  isDefaultCalendar : Nullable bool }.

(** One event of a Graph [calendarView]: [start.dateTime], [end.dateTime]. *)
Record GraphEvent : Type := {
  start_dateTime : string;
  end_dateTime : string }.

(** The Microsoft endpoints, keyed by the bearer token sent. *)
Record GraphApi : Type := {
  oauth2_token : string -> Promise (Response OAuthKey);
  me_calendars : string -> Promise (Response (list OfficeCalendar));
  batch :
    string -> list string -> string ->
    Promise (Response (list (list GraphEvent)));
  me_events_post : string -> CalendarEvent -> Promise (Response Event);
  me_events_patch : string -> string -> CalendarEvent -> Promise (Response string);
  me_events_delete : string -> string -> Promise (Response string) }.

Record ZoomMeeting : Type := {
  start_time : string;
  duration : Z }.

(** The Zoom endpoints, keyed by the bearer token sent. *)
Record ZoomApi : Type := {
  zoom_oauth_token : string -> Promise (Response OAuthKey);
  zoom_meetings : string -> Promise (Response (list ZoomMeeting));
  zoom_meetings_post : string -> CalendarEvent -> Promise (Response Event);
  zoom_meetings_delete : string -> string -> Promise (Response string);
  zoom_meetings_patch :
    string -> string -> CalendarEvent -> Promise (Response string) }.

(** Prisma. *)
Record Prisma : Type := {
  credential_update : Z -> OAuthKey -> Promise unit;
  booking_findFirst : string -> Promise (option PartialBooking);
  bookingReference_deleteMany : Z -> Promise unit;
  attendee_deleteMany : Z -> Promise unit;
  booking_delete : Z -> Promise unit }.

(** The four notification mails. *)
Inductive Mail : Type :=
| EventOrganizerMail
| EventOrganizerRescheduledMail
| EventAttendeeMail
| EventAttendeeRescheduledMail.

(** Modules of the repository these sources import but do not contain, the
    uuid library, the clock and the process environment. *)
Record Modules : Type := {
  (** [+new Date()], milliseconds since the epoch *)
  now : Z;
  (** [new Date(new Date(t).getTime() + minutes * 60000).toISOString()] *)
  isoAddMinutes : string -> Z -> string;
  (** [encodeURIComponent] *)
  encodeURIComponent : string -> string;
  (** [uuidv5(name, uuidv5.URL)] *)
  uuidv5_URL : string -> string;
  (** [process.env.DAILY_API_KEY] *)
  DAILY_API_KEY : option string;
  (** [FAKE_DAILY_CREDENTIAL] of the Daily adapter *)
  FAKE_DAILY_CREDENTIAL : Credential;
  (** [new CalEventParser(e).getUid()] and [.asRichEventPlain()] *)
  getUid : CalendarEvent -> string;
  asRichEventPlain : CalendarEvent -> CalendarEvent;
  (** [new CalDavCalendar(cred)], [new AppleCalendar(cred)] *)
  CalDavCalendar : Credential -> Adapter.t;
  AppleCalendar : Credential -> Adapter.t;
  (** [createMeeting], [updateMeeting] of lib/videoClient *)
  createMeeting : Credential -> CalendarEvent -> Promise EventResult;
  updateMeeting :
    Credential -> CalendarEvent -> Nullable string -> Promise EventResult;
  (** [mail.sendEmail()] *)
  sendEmail : Mail -> Promise unit }.

Record Env : Type := {
  modules : Modules;
  google : GoogleApi;
  graph : GraphApi;
  zoom : ZoomApi;
  prisma : Prisma }.

(** [Math.round(+new Date() / 1000)]: rounding half up of a non-negative
    quotient. *)
Definition epochSeconds (E : Env) : Z := (now (modules E) + 500) / 1000.

(* ===================================================================== *)
(** ** Token refresh adapters *)
(* ===================================================================== *)

Local Open Scope sp_scope.

Definition set_token (tok : string) (expiry : Z) (k : OAuthKey) : OAuthKey :=
  {| access_token := tok; refresh_token := refresh_token k;
     expiry_date := expiry; expires_in := expires_in k |}.

Definition set_zoom_token (tok : string) (expires : Z) (k : OAuthKey) : OAuthKey :=
  {| access_token := tok; refresh_token := refresh_token k;
     expiry_date := expiry_date k; expires_in := expires |}.

(** [handleErrorsJson] *)
Definition handleErrorsJson {B} (response : Response B) : Promise B :=
  if negb (ok response) then Rejected (JsError (statusText response))
  else body response.

(** [handleErrorsRaw] *)
Definition handleErrorsRaw (response : Response string) : Promise string :=
  if negb (ok response) then Rejected (JsError (statusText response))
  else body response.

(** [googleAuth(credential).getToken()]. The state is [googleCredentials], the
    object that is both [credential.key] and the credentials held by the auth
    client, so the value resolved (the client) is read back from the state. *)
Definition googleAuth_getToken (E : Env) (credential : Credential)
  : SP OAuthKey OAuthKey :=
  expiring <- gets (isTokenExpiring (google E)) ;;
  if negb expiring then gets (fun k => k)
  else
    catch
      (rt <- gets refresh_token ;;
       res <- await (refreshToken (google E) rt) ;;
       match res with
       | None =>
           (* [res.res?.data] is undefined: reading [token.access_token] throws *)
           reject (JsTypeError "Cannot read properties of undefined")
       | Some token =>
           modify (set_token (access_token token) (expiry_date token)) ;;;
           k <- gets (fun k => k) ;;
           await (credential_update (prisma E) (cred_id credential) k) ;;;
           gets (fun k => k)
       end)
      (fun err => (* console.error; return myGoogleAuth *) gets (fun k => k)).

(** [o365Auth(credential).getToken()] *)
Definition o365Auth_getToken (E : Env) (credential : Credential)
  : SP OAuthKey string :=
  expiryDate <- gets expiry_date ;;
  if negb (expiryDate <? epochSeconds E)%Z then gets access_token
  else
    rt <- gets refresh_token ;;
    response <- await (oauth2_token (graph E) rt) ;;
    responseBody <- await (handleErrorsJson response) ;;
    modify (set_token (access_token responseBody)
              (epochSeconds E + expires_in responseBody)%Z) ;;;
    k <- gets (fun k => k) ;;
    await (credential_update (prisma E) (cred_id credential) k) ;;;
    gets access_token.

(** [zoomAuth(credential).getToken()] *)
Definition zoomAuth_getToken (E : Env) (credential : Credential)
  : SP OAuthKey string :=
  expiresIn <- gets expires_in ;;
  if negb (expiresIn <? now (modules E))%Z then gets access_token
  else
    rt <- gets refresh_token ;;
    response <- await (zoom_oauth_token (zoom E) rt) ;;
    responseBody <- await (handleErrorsJson response) ;;
    await (credential_update (prisma E) (cred_id credential) responseBody) ;;;
    modify (set_zoom_token (access_token responseBody)
              (epochSeconds E + expires_in responseBody)%Z) ;;;
    gets access_token.

(* ===================================================================== *)
(** ** Provider adapters *)
(* ===================================================================== *)

(** [xs.filter(Boolean)] on optional strings. *)
Fixpoint filterBoolean (xs : list (option string)) : list string :=
  match xs with
  | [] => []
  | Some s :: rest =>
      if truthyString s then s :: filterBoolean rest else filterBoolean rest
  | None :: rest => filterBoolean rest
  end.

(** [e.integration === integrationType] *)
Definition integrationIs (integrationType : string) (e : IntegrationCalendar)
  : bool :=
  match integration e with
  | Some i => String.eqb i integrationType
  | None => false
  end.

Definition isEmpty {A} (l : list A) : bool :=
  match l with [] => true | _ => false end.

Module MicrosoftOffice365Calendar.

Definition integrationType : string := "office365_calendar".

Definition listCalendars (E : Env) (credential : Credential)
  : SP OAuthKey (list IntegrationCalendar) :=
  accessToken <- o365Auth_getToken E credential ;;
  response <- await (me_calendars (graph E) accessToken) ;;
  responseBody <- await (handleErrorsJson response) ;;
  ret (map (fun cal =>
              {| externalId := Some (coalesce (oc_id cal) "No Id");
                 integration := Some integrationType;
                 cal_name := Some (coalesce (oc_name cal) "No calendar name");
                 primary := Some (coalesce (isDefaultCalendar cal) false) |})
         responseBody).

Definition getAvailability (E : Env) (credential : Credential)
  (dateFrom dateTo : string) (selectedCalendars : list IntegrationCalendar)
  : SP OAuthKey (list BufferedBusyTime) :=
  let filter_ :=
    String.append "?startdatetime="
      (String.append (encodeURIComponent (modules E) dateFrom)
         (String.append "&enddatetime="
            (encodeURIComponent (modules E) dateTo))) in
  catch
    (accessToken <- o365Auth_getToken E credential ;;
     let selectedCalendarIds :=
       filterBoolean
         (map externalId (filter (integrationIs integrationType) selectedCalendars)) in
     if isEmpty selectedCalendarIds && negb (isEmpty selectedCalendars)
     then (* only calendars of other integrations selected *) ret []
     else
       ids <- (if isEmpty selectedCalendarIds
               then cals <- listCalendars E credential ;;
                    ret (filterBoolean (map externalId cals))
               else ret selectedCalendarIds) ;;
       response <- await (batch (graph E) accessToken ids filter_) ;;
       responseBody <- await (handleErrorsJson response) ;;
       ret (fold_left
              (fun acc subResponse =>
                 acc ++ map (fun evt =>
                               {| busy_start := String.append (start_dateTime evt) "Z";
                                  busy_end := String.append (end_dateTime evt) "Z" |})
                            subResponse)
              responseBody []))
    (fun err => (* console.log(err) *) reject JsEmptyArray).

Definition createEvent (E : Env) (credential : Credential) (event : CalendarEvent)
  : SP OAuthKey Event :=
  accessToken <- o365Auth_getToken E credential ;;
  response <- await (me_events_post (graph E) accessToken event) ;;
  responseBody <- await (handleErrorsJson response) ;;
  ret {| ev_name := ev_name responseBody; ev_id := ev_id responseBody;
         disableConfirmationEmail := Some true;
         ev_conferenceData := ev_conferenceData responseBody;
         ev_entryPoints := ev_entryPoints responseBody;
         ev_hangoutLink := ev_hangoutLink responseBody |}.

Definition deleteEvent (E : Env) (credential : Credential) (uid : string)
  : SP OAuthKey unit :=
  accessToken <- o365Auth_getToken E credential ;;
  response <- await (me_events_delete (graph E) accessToken uid) ;;
  await (handleErrorsRaw response) ;;;
  ret tt.

Definition updateEvent (E : Env) (credential : Credential) (uid : string)
  (event : CalendarEvent) : SP OAuthKey UpdatePayload :=
  accessToken <- o365Auth_getToken E credential ;;
  response <- await (me_events_patch (graph E) accessToken uid event) ;;
  text <- await (handleErrorsRaw response) ;;
  ret (UpdatedText text).

Definition adapter (E : Env) (credential : Credential) : Adapter.t :=
  {| Adapter.self := credential;
     Adapter.createEvent := createEvent E credential;
     Adapter.updateEvent := updateEvent E credential;
     Adapter.deleteEvent := deleteEvent E credential;
     Adapter.getAvailability := getAvailability E credential;
     Adapter.listCalendars := listCalendars E credential |}.

End MicrosoftOffice365Calendar.

Module GoogleCalendar.

Definition integrationType : string := "google_calendar".

(** [cals.data.items?.map((cal) => cal.id).filter(Boolean) || []] *)
Definition listedIds (items : option (list CalendarListEntry)) : list string :=
  match items with
  | Some l =>
      filterBoolean
        (map (fun cal =>
                match gc_id cal with Defined i => Some i | _ => None end) l)
  | None => []
  end.

(** The freebusy callback is taken to carry [data.calendars] whenever it
    carries no error. *)
Definition getAvailability (E : Env) (credential : Credential)
  (dateFrom dateTo : string) (selectedCalendars : list IntegrationCalendar)
  : SP OAuthKey (list BufferedBusyTime) :=
  myGoogleAuth <- googleAuth_getToken E credential ;;
  let selectedCalendarIds :=
    map externalId (filter (integrationIs integrationType) selectedCalendars) in
  if isEmpty selectedCalendarIds && negb (isEmpty selectedCalendars)
  then ret []
  else
    catch
      (calsIds <- (if isEmpty selectedCalendarIds
                   then cals <- await (calendarList_list (google E) myGoogleAuth) ;;
                        ret (map Some (listedIds cals))
                   else ret selectedCalendarIds) ;;
       calendars <- await (freebusy_query (google E) myGoogleAuth dateFrom dateTo calsIds) ;;
       ret (flat_map (fun busy => busy) calendars))
      (fun err => reject err).

Definition createEvent (E : Env) (credential : Credential) (event : CalendarEvent)
  : SP OAuthKey Event :=
  myGoogleAuth <- googleAuth_getToken E credential ;;
  match events_insert (google E) myGoogleAuth event with
  | CbError err => reject err
  | CbData None => (* [!event?.data]: reject(err) with err null *) reject JsNull
  | CbData (Some data) => ret data
  end.

Definition updateEvent (E : Env) (credential : Credential) (uid : string)
  (event : CalendarEvent) : SP OAuthKey UpdatePayload :=
  myGoogleAuth <- googleAuth_getToken E credential ;;
  match events_update (google E) myGoogleAuth uid event with
  | CbError err => reject err
  | CbData (Some data) => ret (UpdatedData data)
  | CbData None => ret UpdatedNothing
  end.

Definition deleteEvent (E : Env) (credential : Credential) (uid : string)
  : SP OAuthKey unit :=
  myGoogleAuth <- googleAuth_getToken E credential ;;
  match events_delete (google E) myGoogleAuth uid with
  | CbError err => reject err
  | CbData _ => ret tt
  end.

Definition listCalendars (E : Env) (credential : Credential)
  : SP OAuthKey (list IntegrationCalendar) :=
  myGoogleAuth <- googleAuth_getToken E credential ;;
  catch
    (cals <- await (calendarList_list (google E) myGoogleAuth) ;;
     ret (match cals with
          | Some items =>
              map (fun cal =>
                     {| externalId := Some (coalesce (gc_id cal) "No id");
                        integration := Some integrationType;
                        cal_name := Some (coalesce (summary cal) "No name");
                        primary := Some (coalesce (gc_primary cal) false) |})
                  items
          | None => []
          end))
    (fun err => reject err).

Definition adapter (E : Env) (credential : Credential) : Adapter.t :=
  {| Adapter.self := credential;
     Adapter.createEvent := createEvent E credential;
     Adapter.updateEvent := updateEvent E credential;
     Adapter.deleteEvent := deleteEvent E credential;
     Adapter.getAvailability := getAvailability E credential;
     Adapter.listCalendars := listCalendars E credential |}.

End GoogleCalendar.

Module ZoomVideoApiAdapter.

(** [getAvailability] of the Zoom adapter: every failure, a failed token
    refresh included, ends in the empty list. *)
Definition getAvailability (E : Env) (credential : Credential)
  : SP OAuthKey (list BufferedBusyTime) :=
  catch
    (accessToken <- zoomAuth_getToken E credential ;;
     response <- await (zoom_meetings (zoom E) accessToken) ;;
     responseBody <- await (handleErrorsJson response) ;;
     ret (map (fun meeting =>
                 {| busy_start := start_time meeting;
                    busy_end := isoAddMinutes (modules E) (start_time meeting)
                                  (duration meeting) |})
            responseBody))
    (fun err => (* prevents booking failure when the token is expired *) ret []).

(** [createMeeting(event)] of the adapter *)
Definition createMeeting (E : Env) (credential : Credential) (event : CalendarEvent)
  : SP OAuthKey Event :=
  accessToken <- zoomAuth_getToken E credential ;;
  response <- await (zoom_meetings_post (zoom E) accessToken event) ;;
  await (handleErrorsJson response).


(** [updateMeeting(uid, event)] *)
Definition updateMeeting (E : Env) (credential : Credential) (uid : string)
  (event : CalendarEvent) : SP OAuthKey string :=
  accessToken <- zoomAuth_getToken E credential ;;
  response <- await (zoom_meetings_patch (zoom E) accessToken uid event) ;;
  await (handleErrorsRaw response).

End ZoomVideoApiAdapter.

(* ===================================================================== *)
(** ** The request store *)
(* ===================================================================== *)

(** Calls that leave the core, in the order they are issued. *)
Inductive Effect : Type :=
| CalendarCreateEvent (c : Credential)
| CalendarUpdateEvent (c : Credential) (uid : string)
| CalendarDeleteEvent (c : Credential) (uid : string)
| VideoCreateMeeting (c : Credential)
| VideoUpdateMeeting (c : Credential) (uid : Nullable string)
| SendEmail (m : Mail)
| BookingReferenceDeleteMany (bookingId : Z)
| AttendeeDeleteMany (bookingId : Z)
| BookingDelete (bookingId : Z).

(** What a request mutates: the calendar event object (shared by the
    coordinator, [createEvent] and every result's [originalEvent]) and the
    trace of outside calls. *)
Record Store : Type := {
  calEvent : CalendarEvent;
  effects : list Effect }.

Definition emit (x : Effect) : SP Store unit :=
  modify (fun st => {| calEvent := calEvent st; effects := effects st ++ [x] |}).

Definition updateCalEvent (f : CalendarEvent -> CalendarEvent) : SP Store unit :=
  modify (fun st => {| calEvent := f (calEvent st); effects := effects st |}).

(** Run an adapter operation on the key of the credential it closes over.
    The refreshed key stays in [credential.key]; a request uses each credential
    once, so nothing reads it again. *)
Definition callAdapter {A} (a : Adapter.t) (op : SP OAuthKey A) : SP Store A :=
  await (snd (op (cred_key (Adapter.self a)))).

(** [try { await mail.sendEmail() } catch (e) { console.error(...) }] *)
Definition trySendEmail (E : Env) (m : Mail) : SP Store unit :=
  emit (SendEmail m) ;;;
  catch (await (sendEmail (modules E) m)) (fun e => ret tt).

(** [async.mapLimit(coll, 5, f)]: one result per item, in collection order, or
    the rejection of the first item (in order) that rejects. The limit bounds
    the calls in flight, which a settlement does not show: the calls are run one
    after the other. A rejection does not undo or stop calls already started,
    and with up to five items all of them have started by then, so every item
    is run; beyond five items async starts no new call after a failure, a case
    the properties below stay clear of. *)
Fixpoint mapLimit {S A B} (f : A -> SP S B) (xs : list A) : SP S (list B) :=
  fun s =>
    match xs with
    | [] => (s, Resolved [])
    | x :: rest =>
        let (s1, p) := f x s in
        let (s2, ps) := mapLimit f rest s1 in
        (s2, match p, ps with
             | Resolved y, Resolved ys => Resolved (y :: ys)
             | Rejected r, _ => Rejected r
             | Resolved _, Rejected r => Rejected r
             end)
    end.

(* ===================================================================== *)
(** ** lib/calendarClient.ts *)
(* ===================================================================== *)

Module CalendarClient.

(** [calendars(withCredentials)]: the adapters of the credentials whose type
    is known; the others are dropped. *)
Definition calendars (E : Env) (withCredentials : list Credential)
  : list Adapter.t :=
  flat_map
    (fun cred =>
       if String.eqb (cred_type cred) "google_calendar"
       then [GoogleCalendar.adapter E cred]
       else if String.eqb (cred_type cred) "office365_calendar"
       then [MicrosoftOffice365Calendar.adapter E cred]
       else if String.eqb (cred_type cred) "caldav_calendar"
       then [CalDavCalendar (modules E) cred]
       else if String.eqb (cred_type cred) "apple_calendar"
       then [AppleCalendar (modules E) cred]
       else [])
    withCredentials.

(** [getBusyCalendarTimes] *)
Definition getBusyCalendarTimes (E : Env) (withCredentials : list Credential)
  (dateFrom dateTo : string) (selectedCalendars : list IntegrationCalendar)
  : Promise (list BufferedBusyTime) :=
  andThen
    (all (map (fun c =>
                 snd (Adapter.getAvailability c dateFrom dateTo selectedCalendars
                        (cred_key (Adapter.self c))))
            (calendars E withCredentials)))
    (fun results =>
       Resolved (fold_left (fun acc availability => acc ++ availability) results [])).

Definition metadataOf (e : Event) : AdditionInformation :=
  {| ai_conferenceData := ev_conferenceData e;
     ai_entryPoints := ev_entryPoints e;
     ai_hangoutLink := ev_hangoutLink e |}.

(** [createEvent(credential, calEvent, noMail)]; [calEvent] is the event of
    the store. [calendars([credential])[0]] is [undefined] for a credential
    of unknown type, and calling [createEvent] on it throws. *)
Definition createEvent (E : Env) (credential : Credential) (noMail : option bool)
  : SP Store EventResult :=
  calEvent0 <- gets calEvent ;;
  let uid := getUid (modules E) calEvent0 in
  let richEvent := asRichEventPlain (modules E) calEvent0 in
  (* [creationResult] together with [success] *)
  outcome <-
    match calendars E [credential] with
    | [] => reject (JsTypeError "Cannot read properties of undefined (reading 'createEvent')")
    | adapter :: _ =>
        emit (CalendarCreateEvent credential) ;;;
        catch
          (created <- callAdapter adapter (Adapter.createEvent adapter richEvent) ;;
           ret (Some created, true))
          (fun e => (* log.error; success = false *) ret (None, false))
    end ;;
  match outcome with
  | (None, success_) =>
      ret {| er_type := cred_type credential; success := success_; er_uid := uid;
             createdEvent := None; updatedEvent := None;
             originalEvent := RequestEvent; er_videoCallData := None |}
  | (Some creationResult, success_) =>
      updateCalEvent (set_additionInformation (Some (metadataOf creationResult))) ;;;
      (if negb (truthyFlag noMail)
       then trySendEmail E EventOrganizerMail
       else ret tt) ;;;
      ret {| er_type := cred_type credential; success := success_; er_uid := uid;
             createdEvent := Some creationResult; updatedEvent := None;
             originalEvent := RequestEvent; er_videoCallData := None |}
  end.

(** [updateEvent(credential, calEvent, noMail, bookingRefUid)]; the adapter
    is called only for a truthy [bookingRefUid], and [updatedResult] is kept
    only when truthy. *)
Definition updateEvent (E : Env) (credential : Credential) (noMail : option bool)
  (bookingRefUid : Nullable string) : SP Store EventResult :=
  calEvent0 <- gets calEvent ;;
  let uid := getUid (modules E) calEvent0 in
  let richEvent := asRichEventPlain (modules E) calEvent0 in
  outcome <-
    match bookingRefUid with
    | Defined refUid =>
        if truthyString refUid then
          match calendars E [credential] with
          | [] => reject (JsTypeError "Cannot read properties of undefined (reading 'updateEvent')")
          | adapter :: _ =>
              emit (CalendarUpdateEvent credential refUid) ;;;
              catch
                (updated <- callAdapter adapter
                              (Adapter.updateEvent adapter refUid richEvent) ;;
                 ret (Some updated, true))
                (fun e => (* log.error; success = false *) ret (None, false))
          end
        else ret (None, true)
    | _ => ret (None, true)
    end ;;
  match outcome with
  | (Some updatedResult, success_) =>
      if truthyPayload updatedResult then
        (if negb (truthyFlag noMail)
         then trySendEmail E EventOrganizerRescheduledMail
         else ret tt) ;;;
        ret {| er_type := cred_type credential; success := success_; er_uid := uid;
               createdEvent := None; updatedEvent := Some updatedResult;
               originalEvent := RequestEvent; er_videoCallData := None |}
      else
        ret {| er_type := cred_type credential; success := success_; er_uid := uid;
               createdEvent := None; updatedEvent := None;
               originalEvent := RequestEvent; er_videoCallData := None |}
  | (None, success_) =>
      ret {| er_type := cred_type credential; success := success_; er_uid := uid;
             createdEvent := None; updatedEvent := None;
             originalEvent := RequestEvent; er_videoCallData := None |}
  end.

(** [deleteEvent(credential, uid)] *)
Definition deleteEvent (E : Env) (credential : Credential) (uid : string)
  : SP Store unit :=
  match calendars E [credential] with
  | [] => reject (JsTypeError "Cannot read properties of undefined (reading 'deleteEvent')")
  | adapter :: _ =>
      emit (CalendarDeleteEvent credential uid) ;;;
      callAdapter adapter (Adapter.deleteEvent adapter uid)
  end.

(** [getCalendarAdapterOrNull(credential)] *)
Definition getCalendarAdapterOrNull (E : Env) (credential : Credential)
  : option Adapter.t :=
  if String.eqb (cred_type credential) "google_calendar"
  then Some (GoogleCalendar.adapter E credential)
  else if String.eqb (cred_type credential) "office365_calendar"
  then Some (MicrosoftOffice365Calendar.adapter E credential)
  else if String.eqb (cred_type credential) "caldav_calendar"
  then Some (CalDavCalendar (modules E) credential)
  else if String.eqb (cred_type credential) "apple_calendar"
  then Some (AppleCalendar (modules E) credential)
  else None.

(** [listCalendars(withCredentials)]; the final [filter((c) => c != null)]
    keeps every calendar, a calendar being an object. *)
Definition listCalendars (E : Env) (withCredentials : list Credential)
  : Promise (list IntegrationCalendar) :=
  andThen
    (all (map (fun c => snd (Adapter.listCalendars c (cred_key (Adapter.self c))))
            (calendars E withCredentials)))
    (fun results =>
       Resolved (fold_left (fun acc cals => acc ++ cals) results [])).

End CalendarClient.

(* ===================================================================== *)
(** ** lib/events/EventManager.ts *)
(* ===================================================================== *)

(** Modelled from the spec: the [LocationType] enum of lib/location is not part
    of these sources. Its three integration members are the reserved
    [integrations:<name>] sentinels of the spec's data model, with the values
    the sources themselves compare locations against ([createEvent] of the
    Google adapter, [isDedicatedIntegration]). *)
Module LocationType.
Definition GoogleMeet : string := "integrations:google:meet".
Definition Zoom : string := "integrations:zoom".
Definition Daily : string := "integrations:daily".
End LocationType.

Module EventManager.

Record t : Type := {
  calendarCredentials : list Credential;
  videoCredentials : list Credential }.

(** [new EventManager(credentials)] *)
Definition constructor (E : Env) (credentials : list Credential) : t :=
  let calendarCredentials_ :=
    filter (fun cred => endsWith (cred_type cred) "_calendar") credentials in
  let videoCredentials_ :=
    filter (fun cred => endsWith (cred_type cred) "_video") credentials in
  let hasDailyIntegration :=
    match DAILY_API_KEY (modules E) with
    | Some k => truthyString k
    | None => false
    end in
  {| calendarCredentials := calendarCredentials_;
     videoCredentials :=
       if hasDailyIntegration
       then videoCredentials_ ++ [FAKE_DAILY_CREDENTIAL (modules E)]
       else videoCredentials_ |}.

(** [isDedicatedIntegration(location)] *)
Definition isDedicatedIntegration (location : string) : bool :=
  String.eqb location "integrations:zoom" || String.eqb location "integrations:daily".

(** [evt.location ? EventManager.isDedicatedIntegration(evt.location) : null] *)
Definition isDedicatedFor (location : Nullable string) : option bool :=
  match location with
  | Defined l => if truthyString l then Some (isDedicatedIntegration l) else None
  | _ => None
  end.

(** The object [{ conferenceData: { createRequest: { requestId } }, location }]. *)
Record LocationRequest : Type := {
  lr_requestId : string;
  lr_location : string }.

(** [getLocationRequestFromIntegration({ location })] *)
Definition getLocationRequestFromIntegration (E : Env) (location : string)
  : option LocationRequest :=
  if String.eqb location LocationType.GoogleMeet
     || String.eqb location LocationType.Zoom
     || String.eqb location LocationType.Daily
  then
    let requestId_ := uuidv5_URL (modules E) location in
    Some {| lr_requestId := requestId_; lr_location := location |}
  else None.

(** lodash [merge(event, source)] for the one shape of source used here: a
    deep merge, so an existing [createRequest] keeps its other fields, and a
    [null] source changes nothing. *)
Definition merge (event : CalendarEvent) (source : option LocationRequest)
  : CalendarEvent :=
  match source with
  | None => event
  | Some src =>
      let createRequest_ :=
        match conferenceData event with
        | Some cd =>
            {| requestId := Some (lr_requestId src);
               conferenceSolutionKey := conferenceSolutionKey (createRequest cd);
               status := status (createRequest cd) |}
        | None =>
            {| requestId := Some (lr_requestId src);
               conferenceSolutionKey := None;
               status := None |}
        end in
      set_location (Defined (lr_location src))
        (set_conferenceData (Some {| createRequest := createRequest_ |}) event)
  end.

(** [processLocation(event)] *)
Definition processLocation (E : Env) (event : CalendarEvent) : CalendarEvent :=
  match location event with
  | Defined l =>
      if includes l "integration"
      then merge event (getLocationRequestFromIntegration E l)
      else event
  | _ => event
  end.

(** [bookingReferenceToVideoCallData(reference)]; [None] is a [null] or
    [undefined] reference, for which the function throws. *)
Definition bookingReferenceToVideoCallData (reference : option PartialReference)
  : Promise (option VideoCallData) :=
  match reference with
  | None => Rejected (JsError "missing reference")
  | Some reference =>
      let isComplete :=
        if String.eqb (ref_type reference) "zoom_video"
        then notUndefined (meetingId reference)
             && notUndefined (meetingPassword reference)
             && notUndefined (meetingUrl reference)
        else true in
      if isComplete then
        Resolved (Some {| vcd_type := ref_type reference;
                          vcd_id := coalesce (meetingId reference) "";
                          vcd_password := coalesce (meetingPassword reference) "";
                          vcd_url := coalesce (meetingUrl reference) "" |})
      else Resolved None
  end.

(** [(eRes.createdEvent || eRes.updatedEvent)?.disableConfirmationEmail] *)
Definition disablesConfirmationEmail (eRes : EventResult) : bool :=
  match createdEvent eRes with
  | Some e => truthyFlag (disableConfirmationEmail e)
  | None =>
      match updatedEvent eRes with
      | Some (UpdatedData e) => truthyFlag (disableConfirmationEmail e)
      | _ => false
      end
  end.

Inductive MailType : Type := new | reschedule.

(** [sendAttendeeMail(type, results, event)] *)
Definition sendAttendeeMail (E : Env) (type : MailType)
  (results_ : list EventResult) : SP Store unit :=
  if isEmpty results_ || negb (existsb disablesConfirmationEmail results_) then
    let metadata :=
      match results_ with
      | first :: _ =>
          match createdEvent first with
          | Some e => CalendarClient.metadataOf e
          | None => {| ai_conferenceData := None; ai_entryPoints := None;
                       ai_hangoutLink := None |}
          end
      | [] => {| ai_conferenceData := None; ai_entryPoints := None;
                 ai_hangoutLink := None |}
      end in
    updateCalEvent (set_additionInformation (Some metadata)) ;;;
    trySendEmail E
      (match type with
       | reschedule => EventAttendeeRescheduledMail
       | new => EventAttendeeMail
       end)
  else ret tt.

(** [createAllCalendarEvents(event, noMail)] *)
Definition createAllCalendarEvents (E : Env) (this : t) (noMail : option bool)
  : SP Store (list EventResult) :=
  match calendarCredentials this with
  | [] => ret []
  | firstCalendar :: _ =>
      r <- CalendarClient.createEvent E firstCalendar noMail ;;
      ret [r]
  end.

(** [getVideoCredential(event)] *)
Definition getVideoCredential (this : t) (event : CalendarEvent)
  : option Credential :=
  match location event with
  | Defined l =>
      if truthyString l then
        let integrationName := replace l "integrations:" "" in
        find (fun credential => includes (cred_type credential) integrationName)
          (videoCredentials this)
      else None
  | _ => None
  end.

Definition noSuitableCredentials : Reason :=
  JsString "No suitable credentials given for the requested integration name.".

(** [createVideoEvent(event)] *)
Definition createVideoEvent (E : Env) (this : t) : SP Store EventResult :=
  event <- gets calEvent ;;
  match getVideoCredential this event with
  | Some credential =>
      emit (VideoCreateMeeting credential) ;;;
      await (createMeeting (modules E) credential event)
  | None => reject noSuitableCredentials
  end.

(** [booking.references.filter((ref) => ref.type === credential.type)[0]] *)
Definition referenceFor (booking : PartialBooking) (credential : Credential)
  : option PartialReference :=
  hd_error
    (filter (fun ref => String.eqb (ref_type ref) (cred_type credential))
       (references booking)).

(** [updateAllCalendarEvents(event, booking, noMail)] *)
Definition updateAllCalendarEvents (E : Env) (this : t)
  (booking : option PartialBooking) (noMail : option bool)
  : SP Store (list EventResult) :=
  mapLimit
    (fun credential =>
       let bookingRefUid :=
         match booking with
         | Some b =>
             match referenceFor b credential with
             | Some ref => Defined (ref_uid ref)
             | None => Undefined
             end
         | None => Null
         end in
       CalendarClient.updateEvent E credential noMail bookingRefUid)
    (calendarCredentials this).

(** [updateVideoEvent(event, booking)] *)
Definition updateVideoEvent (E : Env) (this : t) (booking : PartialBooking)
  : SP Store EventResult :=
  event <- gets calEvent ;;
  match getVideoCredential this event with
  | Some credential =>
      let bookingRef := referenceFor booking credential in
      let bookingRefUid :=
        match bookingRef with
        | Some ref => Defined (ref_uid ref)
        | None => Null
        end in
      emit (VideoUpdateMeeting credential bookingRefUid) ;;;
      returnVal <- await (updateMeeting (modules E) credential event bookingRefUid) ;;
      match er_videoCallData returnVal with
      | None =>
          (* the provider returned no data about the booking *)
          v <- await (bookingReferenceToVideoCallData bookingRef) ;;
          ret (set_er_videoCallData v returnVal)
      | Some _ => ret returnVal
      end
  | None => reject noSuitableCredentials
  end.

(** The reference built from one result in [create]. *)
Definition referenceOf (result : EventResult) : PartialReference :=
  let uid :=
    match createdEvent result with
    | Some created =>
        if String.eqb (er_type result) "daily_video"
        then ev_name created
        else ev_id created
    | None => ""
    end in
  let field (f : VideoCallData -> string) : Nullable string :=
    match er_videoCallData result with
    | Some v => Defined (f v)
    | None => Undefined
    end in
  {| ref_id := None;
     ref_type := er_type result;
     ref_uid := uid;
     meetingId := field vcd_id;
     meetingPassword := field vcd_password;
     meetingUrl := field vcd_url |}.

(** [create(event)]; [event] is the event of the store. *)
Definition create (E : Env) (this : t) : SP Store CreateUpdateResult :=
  updateCalEvent (processLocation E) ;;;
  evt <- gets calEvent ;;
  let isDedicated := isDedicatedFor (location evt) in
  results0 <- createAllCalendarEvents E this isDedicated ;;
  results_ <-
    (if truthyFlag isDedicated then
       result <- createVideoEvent E this ;;
       match er_videoCallData result with
       | Some v => updateCalEvent (set_videoCallData (Some v))
       | None => ret tt
       end ;;;
       ret (results0 ++ [result])
     else
       sendAttendeeMail E new results0 ;;;
       ret results0) ;;
  ret {| results := results_;
         referencesToCreate := map referenceOf results_ |}.

(** [update(event, rescheduleUid)] *)
Definition update (E : Env) (this : t) (rescheduleUid : string)
  : SP Store CreateUpdateResult :=
  updateCalEvent (processLocation E) ;;;
  (if negb (truthyString rescheduleUid)
   then reject (JsError "You called eventManager.update without an `rescheduleUid`. This should never happen.")
   else ret tt) ;;;
  found <- await (booking_findFirst (prisma E) rescheduleUid) ;;
  match found with
  | None => reject (JsError "booking not found")
  | Some booking =>
      evt <- gets calEvent ;;
      let isDedicated := isDedicatedFor (location evt) in
      results0 <- updateAllCalendarEvents E this (Some booking) isDedicated ;;
      results_ <-
        (if truthyFlag isDedicated then
           result <- updateVideoEvent E this booking ;;
           match er_videoCallData result with
           | Some v => updateCalEvent (set_videoCallData (Some v))
           | None => ret tt
           end ;;;
           ret (results0 ++ [result])
         else
           sendAttendeeMail E reschedule results0 ;;;
           ret results0) ;;
      emit (BookingReferenceDeleteMany (booking_id booking)) ;;;
      emit (AttendeeDeleteMany (booking_id booking)) ;;;
      emit (BookingDelete (booking_id booking)) ;;;
      await (all [ bookingReference_deleteMany (prisma E) (booking_id booking);
                   attendee_deleteMany (prisma E) (booking_id booking);
                   booking_delete (prisma E) (booking_id booking) ]) ;;;
      ret {| results := results_;
             referencesToCreate := references booking |}
  end.

End EventManager.

(* ===================================================================== *)
(** ** Sample requests and environments *)
(* ===================================================================== *)

Module Sample.

Definition key : OAuthKey :=
  {| access_token := "stale-token"; refresh_token := "refresh-token";
     expiry_date := 0; expires_in := 0 |}.

Definition freshToken : OAuthKey :=
  {| access_token := "fresh-token"; refresh_token := "refresh-token";
     expiry_date := 4000; expires_in := 3600 |}.

Definition googleCredential : Credential :=
  {| cred_id := 1; cred_type := "google_calendar"; cred_key := key |}.

Definition officeCredential : Credential :=
  {| cred_id := 2; cred_type := "office365_calendar"; cred_key := key |}.

Definition zoomCredential : Credential :=
  {| cred_id := 3; cred_type := "zoom_video"; cred_key := key |}.


Definition dailyCredential : Credential :=
  {| cred_id := 4; cred_type := "daily_video"; cred_key := key |}.

Definition alice : Person :=
  {| person_name := "Alice"; person_email := "alice@example.com";
     person_timeZone := "Europe/Berlin" |}.

Definition bob : Person :=
  {| person_name := "Bob"; person_email := "bob@example.com";
     person_timeZone := "Europe/London" |}.

Definition event (loc : Nullable string) : CalendarEvent :=
  {| ce_type := "30min"; title := "30min between Alice and Bob";
     startTime := "2021-11-01T10:00:00Z"; endTime := "2021-11-01T10:30:00Z";
     description := Null; team := None; location := loc;
     organizer := alice; attendees := [bob]; conferenceData := None;
     additionInformation := None; ce_uid := Undefined;
     videoCallData := None |}.

Definition store (loc : Nullable string) : Store :=
  {| calEvent := event loc; effects := [] |}.

Definition providerEvent (id : string) : Event :=
  {| ev_name := "room"; ev_id := id; disableConfirmationEmail := None;
     ev_conferenceData := None; ev_entryPoints := None;
     ev_hangoutLink := None |}.

Definition okResponse {B} (b : B) : Response B :=
  {| ok := true; statusText := "OK"; body := Resolved b |}.

Definition errorResponse {B} (statusText_ : string) : Response B :=
  {| ok := false; statusText := statusText_;
     body := Rejected (JsError "body not read") |}.

(** An adapter whose every call is refused. *)
Definition deadAdapter (c : Credential) : Adapter.t :=
  {| Adapter.self := c;
     Adapter.createEvent := fun _ => reject (JsError "unavailable");
     Adapter.updateEvent := fun _ _ => reject (JsError "unavailable");
     Adapter.deleteEvent := fun _ => reject (JsError "unavailable");
     Adapter.getAvailability := fun _ _ _ => reject (JsError "unavailable");
     Adapter.listCalendars := reject (JsError "unavailable") |}.

(** What the video client returns for a created meeting: the provider's
    meeting and the video-call data read off it. *)
Definition createdMeeting (c : Credential) : EventResult :=
  {| er_type := cred_type c; success := true; er_uid := "video-uid";
     createdEvent := Some (providerEvent "123"); updatedEvent := None;
     originalEvent := RequestEvent;
     er_videoCallData :=
       Some {| vcd_type := cred_type c; vcd_id := "123";
               vcd_password := "secret"; vcd_url := "https://zoom.us/j/123" |} |}.

(** What it returns for an updated meeting when the provider sends nothing
    back, with the video-call data [v] the coordinator may fill in. *)
Definition updatedMeeting (c : Credential) (v : option VideoCallData)
  : EventResult :=
  {| er_type := cred_type c; success := true; er_uid := "video-uid";
     createdEvent := None; updatedEvent := None;
     originalEvent := RequestEvent; er_videoCallData := v |}.

Definition modules_ : Modules :=
  {| now := 1000000;
     isoAddMinutes := fun t _ => t;
     encodeURIComponent := fun x => x;
     uuidv5_URL := fun name => String.append "uuid5:" name;
     DAILY_API_KEY := None;
     FAKE_DAILY_CREDENTIAL := dailyCredential;
     getUid := fun _ => "translated-uid";
     asRichEventPlain := fun e => e;
     CalDavCalendar := deadAdapter;
     AppleCalendar := deadAdapter;
     createMeeting := fun c _ => Resolved (createdMeeting c);
     updateMeeting := fun c _ _ => Resolved (updatedMeeting c None);
     sendEmail := fun _ => Resolved tt |}.

(** Google: the token is expiring or not, the refresh exchange settles as
    given, and the calendar calls answer as given. *)
Definition googleApi (expiring : bool) (refresh : Promise (option OAuthKey))
  (insert update_ : Callback Event)
  (busy : Promise (list (list BufferedBusyTime))) : GoogleApi :=
  {| isTokenExpiring := fun _ => expiring;
     refreshToken := fun _ => refresh;
     events_insert := fun _ _ => insert;
     events_update := fun _ _ _ => update_;
     events_delete := fun _ _ => CbData (Some tt);
     calendarList_list := fun _ => Resolved (Some []);
     freebusy_query := fun _ _ _ _ => busy |}.

Definition googleUp : GoogleApi :=
  googleApi false (Resolved (Some freshToken))
    (CbData (Some (providerEvent "google-1")))
    (CbData (Some (providerEvent "google-1")))
    (Resolved []).

(** Microsoft: the token endpoint answers as given, everything else is up. *)
Definition graphApi (token : Promise (Response OAuthKey)) : GraphApi :=
  {| oauth2_token := fun _ => token;
     me_calendars := fun _ => Resolved (okResponse []);
     batch := fun _ _ _ => Resolved (okResponse []);
     me_events_post := fun _ _ => Resolved (okResponse (providerEvent "office-1"));
     me_events_patch := fun _ _ _ => Resolved (okResponse "{}");
     me_events_delete := fun _ _ => Resolved (okResponse "") |}.

Definition graphUp : GraphApi := graphApi (Resolved (okResponse freshToken)).

Definition zoomApi (token : Promise (Response OAuthKey)) : ZoomApi :=
  {| zoom_oauth_token := fun _ => token;
     zoom_meetings := fun _ => Resolved (okResponse []);
     zoom_meetings_post := fun _ _ => Resolved (okResponse (providerEvent "123"));
     zoom_meetings_delete := fun _ _ => Resolved (okResponse "");
     zoom_meetings_patch := fun _ _ _ => Resolved (okResponse "") |}.

Definition prisma_ (found : option PartialBooking) : Prisma :=
  {| credential_update := fun _ _ => Resolved tt;
     booking_findFirst := fun _ => Resolved found;
     bookingReference_deleteMany := fun _ => Resolved tt;
     attendee_deleteMany := fun _ => Resolved tt;
     booking_delete := fun _ => Resolved tt |}.

Definition env (g : GoogleApi) (m : GraphApi) (found : option PartialBooking)
  : Env :=
  {| modules := modules_; google := g; graph := m;
     zoom := zoomApi (Resolved (okResponse freshToken));
     prisma := prisma_ found |}.

Definition envUp : Env := env googleUp graphUp None.


(** A stored reference of a video meeting; [password] is the stored
    password column. *)
Definition reference (type uid : string) (password : Nullable string)
  : PartialReference :=
  {| ref_id := Some 7%Z; ref_type := type; ref_uid := uid;
     meetingId := Defined uid; meetingPassword := password;
     meetingUrl := Defined "https://zoom.us/j/123" |}.

(** A stored reference of a calendar event: no meeting columns. *)
Definition calendarReference (type uid : string) : PartialReference :=
  {| ref_id := Some 8%Z; ref_type := type; ref_uid := uid;
     meetingId := Null; meetingPassword := Null; meetingUrl := Null |}.

(** A Google calendar that refuses the insert. *)
Definition googleInsertRefused : GoogleApi :=
  googleApi false (Resolved (Some freshToken))
    (CbError (JsError "Rate Limit Exceeded"))
    (CbData (Some (providerEvent "google-1")))
    (Resolved []).

(** A booking with one Zoom reference. *)
Definition zoomBooking (password : Nullable string) : PartialBooking :=
  {| booking_id := 5; references := [reference "zoom_video" "123" password] |}.

(** A Google client whose token is expiring and whose refresh exchange is
    refused: the client runs the exchange again before each request, so every
    request fails with the refusal. *)
Definition googleRefreshRefused : GoogleApi :=
  {| isTokenExpiring := fun _ => true;
     refreshToken := fun _ => Rejected (JsError "invalid_grant");
     events_insert := fun _ _ => CbError (JsError "invalid_grant");
     events_update := fun _ _ _ => CbError (JsError "invalid_grant");
     events_delete := fun _ _ => CbError (JsError "invalid_grant");
     calendarList_list := fun _ => Rejected (JsError "invalid_grant");
     freebusy_query := fun _ _ _ _ => Rejected (JsError "invalid_grant") |}.

(** A Google calendar whose free/busy query fails. *)
Definition googleBusyRefused : GoogleApi :=
  googleApi false (Resolved (Some freshToken))
    (CbData (Some (providerEvent "google-1")))
    (CbData (Some (providerEvent "google-1")))
    (Rejected (JsError "Backend Error")).


(** A Microsoft token endpoint that refuses the refresh token. *)
Definition graphRefreshRefused : GraphApi :=
  graphApi (Resolved (errorResponse "Bad Request")).

(** A booking with a Google and an Office365 reference. *)
Definition twoCalendarBooking : PartialBooking :=
  {| booking_id := 5;
     references := [calendarReference "google_calendar" "g1";
                    calendarReference "office365_calendar" "o1"] |}.

End Sample.

(* ===================================================================== *)
(** ** Vocabulary of the properties *)
(* ===================================================================== *)

(** The recognised integration sentinels. *)
Definition recognized (l : string) : Prop :=
  l = LocationType.GoogleMeet \/ l = LocationType.Zoom \/ l = LocationType.Daily.

(** The conference-request id an event carries, if any. *)
Definition requestIdOf (e : CalendarEvent) : option string :=
  match conferenceData e with
  | Some cd => requestId (createRequest cd)
  | None => None
  end.

Definition noCalendarCredential (credentials : list Credential) : Prop :=
  forall c, In c credentials -> endsWith (cred_type c) "_calendar" = false.

Definition emptyMetadata : AdditionInformation :=
  {| ai_conferenceData := None; ai_entryPoints := None; ai_hangoutLink := None |}.


(** The credential's type has a calendar adapter. *)
Definition hasAdapter (E : Env) (c : Credential) : bool :=
  negb (isEmpty (CalendarClient.calendars E [c])).


Definition populated {A} (x : option A) : bool :=
  match x with Some _ => true | None => false end.

(** The stored Office365 token is expired and the refresh exchange fails with
    [r]: the request is refused, the response is not [ok], or its body cannot
    be read. *)
Definition o365RefreshFails (E : Env) (key : OAuthKey) (r : Reason) : Prop :=
  (expiry_date key <? epochSeconds E)%Z = true
  /\ andThen (oauth2_token (graph E) (refresh_token key)) handleErrorsJson
     = Rejected r.






(** The mails sent, in sending order. *)
Definition mailsSent (l : list Effect) : list Mail :=
  flat_map (fun x => match x with SendEmail m => [m] | _ => [] end) l.

(** The environment [E] with another mailer. *)
Definition withSendEmail (E : Env) (send : Mail -> Promise unit) : Env :=
  {| modules :=
       {| now := now (modules E);
          isoAddMinutes := isoAddMinutes (modules E);
          encodeURIComponent := encodeURIComponent (modules E);
          uuidv5_URL := uuidv5_URL (modules E);
          DAILY_API_KEY := DAILY_API_KEY (modules E);
          FAKE_DAILY_CREDENTIAL := FAKE_DAILY_CREDENTIAL (modules E);
          getUid := getUid (modules E);
          asRichEventPlain := asRichEventPlain (modules E);
          CalDavCalendar := CalDavCalendar (modules E);
          AppleCalendar := AppleCalendar (modules E);
          createMeeting := createMeeting (modules E);
          updateMeeting := updateMeeting (modules E);
          sendEmail := send |};
     google := google E;
     graph := graph E;
     zoom := zoom E;
     prisma := prisma E |}.

(** The store after a computation, and what it settled to. *)
Definition storeAfter {A} (m : SP Store A) (st : Store) : Store := fst (m st).
Definition outcome {A} (m : SP Store A) (st : Store) : Promise A := snd (m st).

(** The result [createEvent] returns for a created event, or for none. *)
Definition createdResult (E : Env) (c : Credential) (st : Store)
  (created : option Event) : EventResult :=
  {| er_type := cred_type c;
     success := populated created;
     er_uid := getUid (modules E) (calEvent st);
     createdEvent := created; updatedEvent := None;
     originalEvent := RequestEvent; er_videoCallData := None |}.

(** The result [updateEvent] returns. *)
Definition updatedResult (E : Env) (c : Credential) (st : Store)
  (success_ : bool) (updated : option UpdatePayload) : EventResult :=
  {| er_type := cred_type c;
     success := success_;
     er_uid := getUid (modules E) (calEvent st);
     createdEvent := None; updatedEvent := updated;
     originalEvent := RequestEvent; er_videoCallData := None |}.

(** A computation that sends no mail. *)
Definition quiet {A} (m : SP Store A) : Prop :=
  forall st, mailsSent (effects (fst (m st))) = mailsSent (effects st).

Definition isMail (x : Effect) : bool :=
  match x with SendEmail _ => true | _ => false end.

(** The error of an [update] without a reschedule uid. *)
Definition updateWithoutUid : Reason :=
  JsError "You called eventManager.update without an `rescheduleUid`. This should never happen.".

(** The last character of a string. *)
Fixpoint lastChar (s : string) : option Ascii.ascii :=
  match s with
  | EmptyString => None
  | String a EmptyString => Some a
  | String _ rest => lastChar rest
  end.

(** The three deletions of an update. *)
Definition isDeletion (x : Effect) : bool :=
  match x with
  | BookingReferenceDeleteMany _ | AttendeeDeleteMany _ | BookingDelete _ => true
  | _ => false
  end.

(** A computation that adds no outside call of the class [P] to the trace. *)
Definition silent {A} (P : Effect -> bool) (m : SP Store A) : Prop :=
  forall st, filter P (effects (fst (m st))) = filter P (effects st).

(** A listed calendar with nothing left out. *)
Definition completeCalendar (integrationType : string) (cal : IntegrationCalendar)
  : Prop :=
  integration cal = Some integrationType
  /\ externalId cal <> None
  /\ cal_name cal <> None
  /\ primary cal <> None.

(** A Microsoft account with one calendar that has a name but no id. *)
Definition graphOneCalendar : GraphApi :=
  {| oauth2_token := fun _ => Resolved (Sample.okResponse Sample.freshToken);
     me_calendars :=
       fun _ =>
         Resolved (Sample.okResponse
                     [{| oc_id := Null; oc_name := Defined "Work";
                         isDefaultCalendar := Undefined |}]);
     batch := fun _ _ _ => Resolved (Sample.okResponse []);
     me_events_post :=
       fun _ _ => Resolved (Sample.okResponse (Sample.providerEvent "office-1"));
     me_events_patch := fun _ _ _ => Resolved (Sample.okResponse "{}");
     me_events_delete := fun _ _ => Resolved (Sample.okResponse "") |}.

(* ===================================================================== *)
(** ** Properties *)
(* ===================================================================== *)

(** Unfold the plumbing of [SP] computations. *)
Ltac run_sp :=
  unfold bind, gets, catch, ret, reject, emit, modify, callAdapter, await,
    trySendEmail, updateCalEvent; cbn beta iota.

Example includes_integration : includes "integrations:zoom" "integration" = true.
Proof. reflexivity. Qed.

Example includes_zoom_video : includes "zoom_video" "zoom" = true.
Proof. reflexivity. Qed.

Example includes_plain_location : includes "Berlin" "integration" = false.
Proof. reflexivity. Qed.

Example replace_sentinel : replace "integrations:zoom" "integrations:" "" = "zoom".
Proof. reflexivity. Qed.

Example replace_no_match : replace "office" "integrations:" "" = "office".
Proof. reflexivity. Qed.

Example endsWith_calendar : endsWith "google_calendar" "_calendar" = true.
Proof. reflexivity. Qed.

Example endsWith_video : endsWith "zoom_video" "_calendar" = false.
Proof. reflexivity. Qed.

Example endsWith_short : endsWith "dar" "_calendar" = false.
Proof. reflexivity. Qed.

(** *** The dedicated-integration predicate *)

Lemma isDedicatedIntegration_true (l : string) :
  EventManager.isDedicatedIntegration l = true <->
  l = "integrations:zoom" \/ l = "integrations:daily".
Proof.
  unfold EventManager.isDedicatedIntegration.
  rewrite orb_true_iff, !String.eqb_eq. tauto.
Qed.

(** C7. [isDedicatedIntegration] is true for exactly the two locations
    "integrations:zoom" and "integrations:daily" and false for every other
    string. The decision [create] and [update] take from a location is truthy
    for exactly those two locations too: for an absent ([undefined]) or [null]
    location the predicate is not called and the decision is [null], which
    counts as false wherever it is used. *)
Theorem C7_dedicated_predicate :
  (forall l : string,
      EventManager.isDedicatedIntegration l = true <->
      l = "integrations:zoom" \/ l = "integrations:daily")
  /\ (forall l : string,
         EventManager.isDedicatedIntegration l = false <->
         l <> "integrations:zoom" /\ l <> "integrations:daily")
  /\ (forall l : Nullable string,
         truthyFlag (EventManager.isDedicatedFor l) = true <->
         l = Defined "integrations:zoom" \/ l = Defined "integrations:daily")
  /\ truthyFlag (EventManager.isDedicatedFor Null) = false
  /\ truthyFlag (EventManager.isDedicatedFor Undefined) = false.
Proof.
  split; [exact isDedicatedIntegration_true|].
  split.
  { intro l. rewrite <- not_true_iff_false, isDedicatedIntegration_true. tauto. }
  split; [|split; reflexivity].
  intro l. destruct l as [| |s]; simpl.
  - split; [discriminate|intros [H|H]; discriminate].
  - split; [discriminate|intros [H|H]; discriminate].
  - destruct (truthyString s) eqn:Ht.
    + simpl. destruct (EventManager.isDedicatedIntegration s) eqn:Hd.
      * apply isDedicatedIntegration_true in Hd.
        split; [intros _; destruct Hd; subst; auto|reflexivity].
      * split; [discriminate|].
        intros [H|H]; inversion H; subst; discriminate.
    + split; [discriminate|].
      intros [H|H]; inversion H; subst; discriminate.
Qed.

(** *** Location enrichment *)

Lemma recognized_request (E : Env) (l : string) :
  recognized l ->
  includes l "integration" = true /\
  EventManager.getLocationRequestFromIntegration E l =
    Some {| EventManager.lr_requestId := uuidv5_URL (modules E) l;
            EventManager.lr_location := l |}.
Proof.
  intros [H|[H|H]]; subst l; split; reflexivity.
Qed.

Lemma processLocation_location (E : Env) (e : CalendarEvent) :
  location (EventManager.processLocation E e) = location e.
Proof.
  unfold EventManager.processLocation.
  destruct (location e) as [| |l] eqn:Hl; auto.
  destruct (includes l "integration"); auto.
  unfold EventManager.getLocationRequestFromIntegration.
  destruct (_ || _); simpl; auto.
Qed.

Lemma merge_twice (e : CalendarEvent) (src : EventManager.LocationRequest) :
  EventManager.merge (EventManager.merge e (Some src)) (Some src) =
  EventManager.merge e (Some src).
Proof.
  destruct e; unfold EventManager.merge; simpl.
  destruct conferenceData0; reflexivity.
Qed.

(** Enrichment is idempotent on every event, recognised location or not. *)
Lemma processLocation_idempotent (E : Env) (e : CalendarEvent) :
  EventManager.processLocation E (EventManager.processLocation E e) =
  EventManager.processLocation E e.
Proof.
  unfold EventManager.processLocation at 1.
  rewrite processLocation_location.
  unfold EventManager.processLocation.
  destruct (location e) as [| |l] eqn:Hl; auto.
  destruct (includes l "integration"); auto.
  destruct (EventManager.getLocationRequestFromIntegration E l) as [src|]; auto.
  apply merge_twice.
Qed.

(** C8. For an event whose location is a recognised integration sentinel,
    [processLocation] applied twice gives the same event as applied once, and
    both carry the same conference-request id, the uuid derived from the
    location string. *)
Theorem C8_processLocation_idempotent (E : Env) (e : CalendarEvent) (l : string) :
  location e = Defined l ->
  recognized l ->
  EventManager.processLocation E (EventManager.processLocation E e) =
    EventManager.processLocation E e
  /\ requestIdOf (EventManager.processLocation E (EventManager.processLocation E e)) =
       requestIdOf (EventManager.processLocation E e)
  /\ requestIdOf (EventManager.processLocation E e) = Some (uuidv5_URL (modules E) l).
Proof.
  intros Hl Hr.
  rewrite processLocation_idempotent.
  split; [reflexivity|split; [reflexivity|]].
  destruct (recognized_request E l Hr) as [Hi Hq].
  unfold EventManager.processLocation. rewrite Hl, Hi, Hq.
  unfold requestIdOf, EventManager.merge. simpl.
  destruct (conferenceData e); reflexivity.
Qed.

Lemma C8_witness :
  EventManager.processLocation Sample.envUp
    (EventManager.processLocation Sample.envUp
       (Sample.event (Defined "integrations:zoom"))) =
    EventManager.processLocation Sample.envUp
      (Sample.event (Defined "integrations:zoom"))
  /\ requestIdOf
       (EventManager.processLocation Sample.envUp
          (EventManager.processLocation Sample.envUp
             (Sample.event (Defined "integrations:zoom")))) =
     requestIdOf
       (EventManager.processLocation Sample.envUp
          (Sample.event (Defined "integrations:zoom")))
  /\ requestIdOf
       (EventManager.processLocation Sample.envUp
          (Sample.event (Defined "integrations:zoom"))) =
     Some (uuidv5_URL (modules Sample.envUp) "integrations:zoom").
Proof.
  apply (C8_processLocation_idempotent Sample.envUp
           (Sample.event (Defined "integrations:zoom")) "integrations:zoom").
  - reflexivity.
  - right; left; reflexivity.
Defined.

(** *** Calendar dispatch without calendar credentials *)

Lemma filter_none {A} (f : A -> bool) (l : list A) :
  (forall x, In x l -> f x = false) -> filter f l = [].
Proof.
  induction l as [|a l IH]; simpl; intros H; auto.
  rewrite (H a (or_introl eq_refl)). apply IH. intros x Hx. apply H. now right.
Qed.

Lemma constructor_noCalendar (E : Env) (credentials : list Credential) :
  noCalendarCredential credentials ->
  EventManager.calendarCredentials (EventManager.constructor E credentials) = [].
Proof.
  intros H. unfold EventManager.constructor. simpl.
  apply filter_none. exact H.
Qed.

(** C9. With no calendar credential in the credential set,
    [createAllCalendarEvents] resolves with the empty result list, and leaves
    the event and the trace of outside calls as they were. *)
Theorem C9_createAllCalendarEvents_empty (E : Env) (credentials : list Credential)
  (noMail : option bool) (st : Store) :
  noCalendarCredential credentials ->
  EventManager.createAllCalendarEvents E (EventManager.constructor E credentials)
    noMail st = (st, Resolved []).
Proof.
  intros H. unfold EventManager.createAllCalendarEvents.
  rewrite (constructor_noCalendar E credentials H). reflexivity.
Qed.

Lemma noCalendar_zoom : noCalendarCredential [Sample.zoomCredential].
Proof.
  intros c [Hc|[]]. subst c. reflexivity.
Defined.

Lemma C9_witness :
  EventManager.createAllCalendarEvents Sample.envUp
    (EventManager.constructor Sample.envUp [Sample.zoomCredential])
    None (Sample.store Null) = (Sample.store Null, Resolved []).
Proof.
  apply (C9_createAllCalendarEvents_empty Sample.envUp [Sample.zoomCredential]
           None (Sample.store Null)).
  exact noCalendar_zoom.
Defined.

(** *** Attendee mail on an empty result list *)

(** C10. A [create] whose location is not a dedicated integration and whose
    credential set has no calendar credential resolves with an empty result
    list and still attempts the attendee notification: the one outside call it
    makes is sending the "new" attendee mail. *)
Theorem C10_mail_on_empty_results (E : Env) (credentials : list Credential)
  (st : Store) :
  noCalendarCredential credentials ->
  truthyFlag (EventManager.isDedicatedFor (location (calEvent st))) = false ->
  exists st',
    EventManager.create E (EventManager.constructor E credentials) st =
      (st', Resolved {| results := []; referencesToCreate := [] |})
    /\ effects st' = effects st ++ [SendEmail EventAttendeeMail]
    /\ calEvent st' =
         set_additionInformation (Some emptyMetadata)
           (EventManager.processLocation E (calEvent st)).
Proof.
  intros Hc Hd.
  unfold EventManager.create, EventManager.createAllCalendarEvents.
  rewrite (constructor_noCalendar E credentials Hc).
  unfold bind, updateCalEvent, modify, gets, ret. simpl.
  rewrite processLocation_location, Hd.
  unfold EventManager.sendAttendeeMail, trySendEmail, emit, catch, await,
    bind, updateCalEvent, modify, ret. simpl.
  destruct (sendEmail (modules E) EventAttendeeMail) as [[]|r];
    eexists; (split; [reflexivity|split; reflexivity]).
Qed.

Lemma C10_witness :
  exists st',
    EventManager.create Sample.envUp
      (EventManager.constructor Sample.envUp [Sample.zoomCredential])
      (Sample.store (Defined "Berlin")) =
      (st', Resolved {| results := []; referencesToCreate := [] |})
    /\ effects st' =
         effects (Sample.store (Defined "Berlin")) ++ [SendEmail EventAttendeeMail]
    /\ calEvent st' =
         set_additionInformation (Some emptyMetadata)
           (EventManager.processLocation Sample.envUp
              (calEvent (Sample.store (Defined "Berlin")))).
Proof.
  apply (C10_mail_on_empty_results Sample.envUp [Sample.zoomCredential]
           (Sample.store (Defined "Berlin"))).
  - exact noCalendar_zoom.
  - reflexivity.
Defined.

(** *** References built by [create] *)

Lemma bind_resolved {S A B} (m : SP S A) (k : A -> SP S B) (s s' : S) (b : B) :
  bind m k s = (s', Resolved b) ->
  exists a s1, m s = (s1, Resolved a) /\ k a s1 = (s', Resolved b).
Proof.
  unfold bind. destruct (m s) as [s1 [a|r]]; intros H.
  - exists a, s1. auto.
  - discriminate.
Qed.

Lemma create_references (E : Env) (this : EventManager.t) (st st' : Store)
  (r : CreateUpdateResult) :
  EventManager.create E this st = (st', Resolved r) ->
  referencesToCreate r = map EventManager.referenceOf (results r).
Proof.
  unfold EventManager.create. intros H.
  apply bind_resolved in H. destruct H as (_ & s1 & _ & H).
  apply bind_resolved in H. destruct H as (evt & s2 & _ & H).
  apply bind_resolved in H. destruct H as (results0 & s3 & _ & H).
  apply bind_resolved in H. destruct H as (results_ & s4 & _ & H).
  unfold ret in H. inversion H. reflexivity.
Qed.

(** C1 (amended). When [create] resolves, [referencesToCreate] holds exactly
    one reference per result of [results], in the same order, whether the
    result succeeded or not. Each reference has the provider type of its
    result; its uid is the id of the result's created event (its name for a
    "daily_video" result) and the empty string for a result without a created
    event. *)
Theorem C1_one_reference_per_result (E : Env) (this : EventManager.t)
  (st : Store) (r : CreateUpdateResult) :
  snd (EventManager.create E this st) = Resolved r ->
  length (referencesToCreate r) = length (results r)
  /\ forall i res,
       nth_error (results r) i = Some res ->
       exists ref,
         nth_error (referencesToCreate r) i = Some ref
         /\ ref_type ref = er_type res
         /\ ref_uid ref =
              match createdEvent res with
              | Some created =>
                  if String.eqb (er_type res) "daily_video"
                  then ev_name created else ev_id created
              | None => ""
              end.
Proof.
  intros H.
  destruct (EventManager.create E this st) as [st' p] eqn:Hc.
  simpl in H. subst p.
  rewrite (create_references E this st st' r Hc).
  split; [apply length_map|].
  intros i res Hi. exists (EventManager.referenceOf res).
  split; [rewrite nth_error_map, Hi; reflexivity|].
  split; reflexivity.
Qed.

Lemma C1_witness :
  exists r,
    snd (EventManager.create Sample.envUp
           (EventManager.constructor Sample.envUp
              [Sample.googleCredential; Sample.zoomCredential])
           (Sample.store (Defined "integrations:zoom"))) = Resolved r
    /\ length (referencesToCreate r) = length (results r)
    /\ forall i res,
         nth_error (results r) i = Some res ->
         exists ref,
           nth_error (referencesToCreate r) i = Some ref
           /\ ref_type ref = er_type res
           /\ ref_uid ref =
                match createdEvent res with
                | Some created =>
                    if String.eqb (er_type res) "daily_video"
                    then ev_name created else ev_id created
                | None => ""
                end.
Proof.
  eexists. split; [vm_compute; reflexivity|].
  apply (C1_one_reference_per_result Sample.envUp
           (EventManager.constructor Sample.envUp
              [Sample.googleCredential; Sample.zoomCredential])
           (Sample.store (Defined "integrations:zoom"))).
  vm_compute. reflexivity.
Defined.

(** C1 as stated fails: with one Google calendar credential whose insert is
    refused, [create] resolves with one failed result and still one reference,
    so the references are not one per successful result. *)
Lemma C1_counterexample :
  ~ (forall (E : Env) (this : EventManager.t) (st : Store) (r : CreateUpdateResult),
        snd (EventManager.create E this st) = Resolved r ->
        length (referencesToCreate r) = length (filter success (results r))).
Proof.
  intros H.
  specialize (H (Sample.env Sample.googleInsertRefused Sample.graphUp None)
                (EventManager.constructor
                   (Sample.env Sample.googleInsertRefused Sample.graphUp None)
                   [Sample.googleCredential])
                (Sample.store (Defined "Berlin")) _ eq_refl).
  vm_compute in H. discriminate.
Qed.

(** *** Reconstruction of video-call data on update *)

(** A reference whose fields are absent ([undefined]) yields no data. *)
Lemma bookingReference_undefined_password (uid : string) :
  EventManager.bookingReferenceToVideoCallData
    (Some (Sample.reference "zoom_video" uid Undefined)) = Resolved None.
Proof. reflexivity. Qed.

(** A reference with all three fields present is turned into video-call data
    field by field. *)
Lemma bookingReference_complete (ref : PartialReference) (id password url : string) :
  meetingId ref = Defined id ->
  meetingPassword ref = Defined password ->
  meetingUrl ref = Defined url ->
  EventManager.bookingReferenceToVideoCallData (Some ref) =
    Resolved (Some {| vcd_type := ref_type ref; vcd_id := id;
                      vcd_password := password; vcd_url := url |}).
Proof.
  intros Hi Hp Hu. unfold EventManager.bookingReferenceToVideoCallData.
  rewrite Hi, Hp, Hu. cbn. destruct (String.eqb _ _); reflexivity.
Qed.

(** When the provider's update response carries no video-call data,
    [updateVideoEvent] takes it from the booking's reference of the
    credential's type. *)
Lemma updateVideoEvent_reconstructs (E : Env) (this : EventManager.t)
  (booking : PartialBooking) (st : Store) (c : Credential)
  (returnVal : EventResult) :
  EventManager.getVideoCredential this (calEvent st) = Some c ->
  updateMeeting (modules E) c (calEvent st)
    (match EventManager.referenceFor booking c with
     | Some ref => Defined (ref_uid ref)
     | None => Null
     end) = Resolved returnVal ->
  er_videoCallData returnVal = None ->
  snd (EventManager.updateVideoEvent E this booking st) =
    andThen
      (EventManager.bookingReferenceToVideoCallData
         (EventManager.referenceFor booking c))
      (fun v => Resolved (set_er_videoCallData v returnVal)).
Proof.
  intros Hc Hu Hv. unfold EventManager.updateVideoEvent. run_sp.
  rewrite Hc. cbn. rewrite Hu. cbn. rewrite Hv.
  destruct (EventManager.bookingReferenceToVideoCallData _); reflexivity.
Qed.

(** A [null] field passes the [!== undefined] test. *)
Lemma bookingReference_null_field (ref : PartialReference) :
  ref_type ref = "zoom_video" ->
  meetingId ref <> Undefined ->
  meetingPassword ref = Null ->
  meetingUrl ref <> Undefined ->
  EventManager.bookingReferenceToVideoCallData (Some ref) =
    Resolved (Some {| vcd_type := "zoom_video";
                      vcd_id := coalesce (meetingId ref) "";
                      vcd_password := "";
                      vcd_url := coalesce (meetingUrl ref) "" |}).
Proof.
  intros Ht Hi Hp Hu. unfold EventManager.bookingReferenceToVideoCallData.
  rewrite Ht, Hp. simpl.
  destruct (meetingId ref); try contradiction;
    destruct (meetingUrl ref); try contradiction; reflexivity.
Qed.

(** C2 (the code at the failing input). A Zoom booking is rescheduled, the
    provider's update response carries no video-call data, and the stored
    reference has a [null] password, as the database returns a missing one:
    [updateVideoEvent] returns video-call data with an empty password instead
    of no data, and [update] hands it on in its results and on the event. *)
Theorem C2_null_password_gives_partial_data :
  snd (EventManager.updateVideoEvent Sample.envUp
         (EventManager.constructor Sample.envUp [Sample.zoomCredential])
         (Sample.zoomBooking Null)
         (Sample.store (Defined "integrations:zoom")))
  = Resolved
      (Sample.updatedMeeting Sample.zoomCredential
         (Some {| vcd_type := "zoom_video"; vcd_id := "123";
                  vcd_password := ""; vcd_url := "https://zoom.us/j/123" |}))
  /\ exists st' r,
       EventManager.update
         (Sample.env Sample.googleUp Sample.graphUp (Some (Sample.zoomBooking Null)))
         (EventManager.constructor Sample.envUp [Sample.zoomCredential])
         "booking-uid" (Sample.store (Defined "integrations:zoom"))
       = (st', Resolved r)
       /\ map er_videoCallData (results r) =
            [Some {| vcd_type := "zoom_video"; vcd_id := "123";
                     vcd_password := ""; vcd_url := "https://zoom.us/j/123" |}]
       /\ videoCallData (calEvent st') =
            Some {| vcd_type := "zoom_video"; vcd_id := "123";
                    vcd_password := ""; vcd_url := "https://zoom.us/j/123" |}.
Proof.
  split; [vm_compute; reflexivity|].
  eexists. eexists. split; [vm_compute; reflexivity|].
  split; reflexivity.
Qed.

(** *** Results of calendar create and update *)


Lemma updateEvent_result (E : Env) (c : Credential) (noMail : option bool)
  (bookingRefUid : Nullable string) (st : Store) (r : EventResult) :
  snd (CalendarClient.updateEvent E c noMail bookingRefUid st) = Resolved r ->
  createdEvent r = None
  /\ (success r = false -> updatedEvent r = None)
  /\ (truthy bookingRefUid = false -> success r = true /\ updatedEvent r = None)
  /\ (forall p, updatedEvent r = Some p -> truthyPayload p = true)
  /\ er_type r = cred_type c.
Proof.
  unfold CalendarClient.updateEvent.
  generalize (CalendarClient.calendars E [c]). intros adapters.
  destruct bookingRefUid as [| |refUid]; run_sp; cbn.
  - intros H; inversion H; subst r; cbn. repeat split; auto; discriminate.
  - intros H; inversion H; subst r; cbn. repeat split; auto; discriminate.
  - destruct (truthyString refUid) eqn:Ht; cbn.
    + destruct adapters as [|adapter rest]; cbn.
      * discriminate.
      * destruct (snd (Adapter.updateEvent adapter _ _ _)) as [updated|err]; cbn.
        -- destruct (truthyPayload updated) eqn:Hp; cbn.
           ++ destruct (negb (truthyFlag noMail)); cbn;
                [destruct (sendEmail (modules E) EventOrganizerRescheduledMail); cbn|];
                intros H; inversion H; subst r; cbn;
                (repeat split; auto; try discriminate;
                 intros p Hq; inversion Hq; subst p; exact Hp).
           ++ intros H; inversion H; subst r; cbn.
              repeat split; auto; discriminate.
        -- intros H; inversion H; subst r; cbn.
           repeat split; auto; discriminate.
    + intros H; inversion H; subst r; cbn. repeat split; auto; discriminate.
Qed.




(** *** Calendar dispatch *)













(** *** Token refresh failures on booking mutations *)

Lemma o365Auth_refresh_failure (E : Env) (c : Credential) (key : OAuthKey)
  (r : Reason) :
  o365RefreshFails E key r ->
  o365Auth_getToken E c key = (key, Rejected r).
Proof.
  intros [Hexp Hfail]. unfold o365Auth_getToken. run_sp. rewrite Hexp. cbn.
  unfold andThen in Hfail.
  destruct (oauth2_token (graph E) (refresh_token key)) as [response|r0]; cbn.
  - rewrite Hfail. reflexivity.
  - congruence.
Qed.


Lemma calendars_office (E : Env) (c : Credential) :
  cred_type c = "office365_calendar" ->
  CalendarClient.calendars E [c] = [MicrosoftOffice365Calendar.adapter E c].
Proof.
  intros H. unfold CalendarClient.calendars. cbn. rewrite H. reflexivity.
Qed.












(** *** Availability aggregation *)








(** The Office365 adapter turns a failed refresh into a rejection whose reason
    is an empty array. *)
Lemma office_getAvailability_refresh_failure (E : Env) (c : Credential)
  (key : OAuthKey) (dateFrom dateTo : string)
  (selectedCalendars : list IntegrationCalendar) (r : Reason) :
  o365RefreshFails E key r ->
  snd (MicrosoftOffice365Calendar.getAvailability E c dateFrom dateTo
         selectedCalendars key) = Rejected JsEmptyArray.
Proof.
  intros Hfail.
  pose proof (o365Auth_refresh_failure E c key r Hfail) as Htok.
  unfold MicrosoftOffice365Calendar.getAvailability, catch, bind.
  rewrite Htok. reflexivity.
Qed.

Lemma googleAuth_getToken_resolves (E : Env) (c : Credential) (key : OAuthKey) :
  exists k', googleAuth_getToken E c key = (k', Resolved k').
Proof.
  unfold googleAuth_getToken. run_sp.
  destruct (isTokenExpiring (google E) key); cbn; eauto.
  destruct (refreshToken (google E) (refresh_token key)) as [[token|]|r0]; cbn;
    eauto.
  destruct (credential_update (prisma E) _ _); cbn; eauto.
Qed.







(* ===================================================================== *)
(** ** Further properties of the calendar client and the coordinator *)
(* ===================================================================== *)

(** *** What [createEvent] and [updateEvent] do to the store *)

Lemma mailsSent_app (a b : list Effect) :
  mailsSent (a ++ b) = mailsSent a ++ mailsSent b.
Proof. apply flat_map_app. Qed.

(** Sending a mail always goes on: a failure of the mailer is swallowed. *)
Lemma trySendEmail_run (E : Env) (m : Mail) (st : Store) :
  trySendEmail E m st =
  ({| calEvent := calEvent st; effects := effects st ++ [SendEmail m] |},
   Resolved tt).
Proof.
  unfold trySendEmail. run_sp.
  destruct (sendEmail (modules E) m) as [[]|r]; reflexivity.
Qed.

Lemma createEvent_run (E : Env) (c : Credential) (noMail : option bool)
  (st : Store) (adapter : Adapter.t) (rest : list Adapter.t) :
  CalendarClient.calendars E [c] = adapter :: rest ->
  CalendarClient.createEvent E c noMail st =
  match snd (Adapter.createEvent adapter
               (asRichEventPlain (modules E) (calEvent st))
               (cred_key (Adapter.self adapter))) with
  | Resolved created =>
      ({| calEvent :=
            set_additionInformation
              (Some (CalendarClient.metadataOf created)) (calEvent st);
          effects :=
            (effects st ++ [CalendarCreateEvent c]) ++
            (if negb (truthyFlag noMail) then [SendEmail EventOrganizerMail]
             else []) |},
       Resolved (createdResult E c st (Some created)))
  | Rejected _ =>
      ({| calEvent := calEvent st;
          effects := effects st ++ [CalendarCreateEvent c] |},
       Resolved (createdResult E c st None))
  end.
Proof.
  intros Ha. unfold CalendarClient.createEvent. rewrite Ha.
  unfold bind at 1. unfold gets at 1. cbn beta iota.
  unfold bind at 1. unfold bind at 1. unfold emit at 1, modify at 1.
  cbn beta iota. unfold catch, bind, callAdapter, await, ret. cbn beta iota.
  destruct (snd (Adapter.createEvent adapter _ _)) as [created|err]; cbn.
  - unfold updateCalEvent, modify. cbn beta iota.
    destruct (negb (truthyFlag noMail)); cbn beta iota.
    + rewrite trySendEmail_run. cbn. reflexivity.
    + cbn. rewrite app_nil_r. reflexivity.
  - reflexivity.
Qed.

Lemma updateEvent_skipped (E : Env) (c : Credential) (noMail : option bool)
  (bookingRefUid : Nullable string) (st : Store) :
  truthy bookingRefUid = false ->
  CalendarClient.updateEvent E c noMail bookingRefUid st =
  (st, Resolved (updatedResult E c st true None)).
Proof.
  intros Hu. unfold CalendarClient.updateEvent.
  destruct bookingRefUid as [| |refUid]; cbn in Hu; try rewrite Hu;
    destruct st; reflexivity.
Qed.

Lemma updateEvent_run (E : Env) (c : Credential) (noMail : option bool)
  (refUid : string) (st : Store) (adapter : Adapter.t) (rest : list Adapter.t) :
  truthyString refUid = true ->
  CalendarClient.calendars E [c] = adapter :: rest ->
  CalendarClient.updateEvent E c noMail (Defined refUid) st =
  match snd (Adapter.updateEvent adapter refUid
               (asRichEventPlain (modules E) (calEvent st))
               (cred_key (Adapter.self adapter))) with
  | Resolved updated =>
      if truthyPayload updated then
        ({| calEvent := calEvent st;
            effects :=
              (effects st ++ [CalendarUpdateEvent c refUid]) ++
              (if negb (truthyFlag noMail)
               then [SendEmail EventOrganizerRescheduledMail] else []) |},
         Resolved (updatedResult E c st true (Some updated)))
      else
        ({| calEvent := calEvent st;
            effects := effects st ++ [CalendarUpdateEvent c refUid] |},
         Resolved (updatedResult E c st true None))
  | Rejected _ =>
      ({| calEvent := calEvent st;
          effects := effects st ++ [CalendarUpdateEvent c refUid] |},
       Resolved (updatedResult E c st false None))
  end.
Proof.
  intros Hu Ha. unfold CalendarClient.updateEvent. rewrite Hu, Ha.
  unfold bind at 1. unfold gets at 1. cbn beta iota.
  unfold bind at 1. unfold bind at 1. unfold emit at 1, modify at 1.
  cbn beta iota. unfold catch, bind, callAdapter, await, ret. cbn beta iota.
  destruct (snd (Adapter.updateEvent adapter _ _ _)) as [updated|err]; cbn.
  - destruct (truthyPayload updated); cbn beta iota; [|reflexivity].
    destruct (negb (truthyFlag noMail)); cbn beta iota.
    + rewrite trySendEmail_run. cbn. reflexivity.
    + cbn. rewrite app_nil_r. reflexivity.
  - reflexivity.
Qed.

Lemma hasAdapter_calendars (E : Env) (c : Credential) :
  hasAdapter E c = true ->
  exists adapter rest, CalendarClient.calendars E [c] = adapter :: rest.
Proof.
  unfold hasAdapter.
  destruct (CalendarClient.calendars E [c]) as [|a l]; [discriminate|eauto].
Qed.

(** X1. For a credential that has an adapter, [createEvent] never rejects and
    its result follows the adapter's answer. When the adapter resolves with
    the created event, the result has [success] true and carries that event,
    the event of the request gets the provider's link metadata, and after the
    adapter call the organizer mail is sent exactly when [noMail] is falsy.
    When the adapter rejects, the result has [success] false and no payload,
    the event is untouched, and the adapter call is the only outside call: no
    mail goes out. *)
Theorem X1_createEvent_store (E : Env) (c : Credential) (noMail : option bool)
  (st : Store) (adapter : Adapter.t) (rest : list Adapter.t) :
  CalendarClient.calendars E [c] = adapter :: rest ->
  match snd (Adapter.createEvent adapter
               (asRichEventPlain (modules E) (calEvent st))
               (cred_key (Adapter.self adapter))) with
  | Resolved created =>
      (exists r,
          outcome (CalendarClient.createEvent E c noMail) st = Resolved r
          /\ success r = true
          /\ createdEvent r = Some created
          /\ updatedEvent r = None
          /\ er_type r = cred_type c
          /\ er_uid r = getUid (modules E) (calEvent st))
      /\ calEvent (storeAfter (CalendarClient.createEvent E c noMail) st) =
           set_additionInformation
             (Some (CalendarClient.metadataOf created)) (calEvent st)
      /\ effects (storeAfter (CalendarClient.createEvent E c noMail) st) =
           effects st ++
             CalendarCreateEvent c ::
             (if truthyFlag noMail then [] else [SendEmail EventOrganizerMail])
  | Rejected _ =>
      (exists r,
          outcome (CalendarClient.createEvent E c noMail) st = Resolved r
          /\ success r = false
          /\ createdEvent r = None
          /\ updatedEvent r = None
          /\ er_type r = cred_type c
          /\ er_uid r = getUid (modules E) (calEvent st))
      /\ storeAfter (CalendarClient.createEvent E c noMail) st =
           {| calEvent := calEvent st;
              effects := effects st ++ [CalendarCreateEvent c] |}
  end.
Proof.
  intros Ha. unfold outcome, storeAfter.
  rewrite (createEvent_run E c noMail st adapter rest Ha).
  destruct (snd (Adapter.createEvent adapter _ _)) as [created|err]; cbn.
  - split; [eexists; repeat split; reflexivity|].
    split; [reflexivity|].
    rewrite <- app_assoc. destruct (truthyFlag noMail); reflexivity.
  - split; [eexists; repeat split; reflexivity|reflexivity].
Qed.

Lemma X1_witness :
  (exists r,
      outcome (CalendarClient.createEvent Sample.envUp Sample.googleCredential None)
        (Sample.store Null) = Resolved r
      /\ success r = true
      /\ createdEvent r = Some (Sample.providerEvent "google-1")
      /\ updatedEvent r = None
      /\ er_type r = "google_calendar"
      /\ er_uid r = "translated-uid")
  /\ calEvent
       (storeAfter
          (CalendarClient.createEvent Sample.envUp Sample.googleCredential None)
          (Sample.store Null)) =
     set_additionInformation
       (Some (CalendarClient.metadataOf (Sample.providerEvent "google-1")))
       (calEvent (Sample.store Null))
  /\ effects
       (storeAfter
          (CalendarClient.createEvent Sample.envUp Sample.googleCredential None)
          (Sample.store Null)) =
     effects (Sample.store Null) ++
       [CalendarCreateEvent Sample.googleCredential; SendEmail EventOrganizerMail].
Proof.
  exact (X1_createEvent_store Sample.envUp Sample.googleCredential None
           (Sample.store Null)
           (GoogleCalendar.adapter Sample.envUp Sample.googleCredential) []
           eq_refl).
Defined.

(** X2. For a credential that has an adapter, [updateEvent] never rejects and
    never changes the event. Without a booking reference uid it makes no
    outside call at all; otherwise the rescheduled organizer mail is sent
    exactly when the result carries an [updatedEvent] and [noMail] is falsy. *)
Theorem X2_updateEvent_store (E : Env) (c : Credential) (noMail : option bool)
  (bookingRefUid : Nullable string) (st : Store) :
  hasAdapter E c = true ->
  exists r,
    outcome (CalendarClient.updateEvent E c noMail bookingRefUid) st = Resolved r
    /\ calEvent (storeAfter (CalendarClient.updateEvent E c noMail bookingRefUid) st)
       = calEvent st
    /\ (truthy bookingRefUid = false ->
        storeAfter (CalendarClient.updateEvent E c noMail bookingRefUid) st = st)
    /\ mailsSent
         (effects (storeAfter (CalendarClient.updateEvent E c noMail bookingRefUid) st))
       = mailsSent (effects st) ++
           (if populated (updatedEvent r) && negb (truthyFlag noMail)
            then [EventOrganizerRescheduledMail] else []).
Proof.
  intros Hk. unfold outcome, storeAfter.
  destruct (truthy bookingRefUid) eqn:Hu.
  - destruct bookingRefUid as [| |refUid]; try discriminate. cbn in Hu.
    destruct (hasAdapter_calendars E c Hk) as (adapter & rest & Ha).
    rewrite (updateEvent_run E c noMail refUid st adapter rest Hu Ha).
    destruct (snd (Adapter.updateEvent adapter _ _ _)) as [updated|err]; cbn.
    + destruct (truthyPayload updated); cbn;
        (eexists; split; [reflexivity|]; cbn; split; [reflexivity|];
         split; [discriminate|]; rewrite ?mailsSent_app; cbn).
      * destruct (negb (truthyFlag noMail)); cbn; rewrite ?app_nil_r; reflexivity.
      * reflexivity.
    + eexists. split; [reflexivity|]. cbn. split; [reflexivity|].
      split; [discriminate|]. rewrite mailsSent_app. reflexivity.
  - rewrite (updateEvent_skipped E c noMail bookingRefUid st Hu). cbn.
    eexists. split; [reflexivity|]. cbn. split; [reflexivity|].
    split; [reflexivity|]. now rewrite app_nil_r.
Qed.

Lemma X2_witness :
  exists r,
    outcome (CalendarClient.updateEvent Sample.envUp Sample.officeCredential None
               (Defined "o1")) (Sample.store Null) = Resolved r
    /\ calEvent (storeAfter
                   (CalendarClient.updateEvent Sample.envUp Sample.officeCredential
                      None (Defined "o1")) (Sample.store Null))
       = calEvent (Sample.store Null).
Proof.
  destruct (X2_updateEvent_store Sample.envUp Sample.officeCredential None
              (Defined "o1") (Sample.store Null) eq_refl) as (r & Hr & He & _).
  exists r. split; [exact Hr|exact He].
Defined.

(** *** Mails of a dedicated-video request *)

Lemma quiet_ret {A} (a : A) : quiet (ret a).
Proof. intros st. reflexivity. Qed.

Lemma quiet_reject {A} (r : Reason) : quiet (@reject Store A r).
Proof. intros st. reflexivity. Qed.

Lemma quiet_await {A} (p : Promise A) : quiet (await p).
Proof. intros st. reflexivity. Qed.

Lemma quiet_gets {A} (f : Store -> A) : quiet (gets f).
Proof. intros st. reflexivity. Qed.

Lemma quiet_updateCalEvent (f : CalendarEvent -> CalendarEvent) :
  quiet (updateCalEvent f).
Proof. intros st. reflexivity. Qed.

Lemma quiet_emit (x : Effect) : isMail x = false -> quiet (emit x).
Proof.
  intros Hx st. unfold emit, modify. cbn. rewrite mailsSent_app. cbn.
  destruct x; try discriminate; cbn; now rewrite app_nil_r.
Qed.

Lemma quiet_bind {A B} (m : SP Store A) (k : A -> SP Store B) :
  quiet m -> (forall a, quiet (k a)) -> quiet (bind m k).
Proof.
  intros Hm Hk st. unfold bind. specialize (Hm st).
  destruct (m st) as [s1 [a|r]]; cbn in *.
  - rewrite (Hk a s1). exact Hm.
  - exact Hm.
Qed.

Lemma quiet_catch {A} (m : SP Store A) (h : Reason -> SP Store A) :
  quiet m -> (forall r, quiet (h r)) -> quiet (catch m h).
Proof.
  intros Hm Hh st. unfold catch. specialize (Hm st).
  destruct (m st) as [s1 [a|r]]; cbn in *.
  - exact Hm.
  - rewrite (Hh r s1). exact Hm.
Qed.

Lemma quiet_mapLimit {A B} (f : A -> SP Store B) (xs : list A) :
  (forall x, quiet (f x)) -> quiet (mapLimit f xs).
Proof.
  intros Hf. induction xs as [|x rest IH]; intros st; cbn; [reflexivity|].
  specialize (Hf x st). destruct (f x st) as [s1 p]. cbn in Hf.
  specialize (IH s1). destruct (mapLimit f rest s1) as [s2 ps]. cbn in *.
  congruence.
Qed.

Lemma quiet_callAdapter {A} (a : Adapter.t) (op : SP OAuthKey A) :
  quiet (callAdapter a op).
Proof. intros st. reflexivity. Qed.

Lemma createEvent_quiet (E : Env) (c : Credential) (noMail : option bool) :
  truthyFlag noMail = true -> quiet (CalendarClient.createEvent E c noMail).
Proof.
  intros Hn. unfold CalendarClient.createEvent. rewrite Hn. cbn [negb].
  apply quiet_bind; [apply quiet_gets|]. intros ev.
  apply quiet_bind.
  - destruct (CalendarClient.calendars E [c]); [apply quiet_reject|].
    apply quiet_bind; [apply quiet_emit; reflexivity|]. intros _.
    apply quiet_catch.
    + apply quiet_bind; [apply quiet_callAdapter|]. intros; apply quiet_ret.
    + intros; apply quiet_ret.
  - intros [[created|] ok_]; [|apply quiet_ret].
    apply quiet_bind; [apply quiet_updateCalEvent|]. intros _.
    apply quiet_bind; [apply quiet_ret|]. intros; apply quiet_ret.
Qed.

Lemma updateEvent_quiet (E : Env) (c : Credential) (noMail : option bool)
  (bookingRefUid : Nullable string) :
  truthyFlag noMail = true ->
  quiet (CalendarClient.updateEvent E c noMail bookingRefUid).
Proof.
  intros Hn. unfold CalendarClient.updateEvent. rewrite Hn. cbn [negb].
  apply quiet_bind; [apply quiet_gets|]. intros ev.
  apply quiet_bind.
  - destruct bookingRefUid as [| |refUid]; try apply quiet_ret.
    destruct (truthyString refUid); [|apply quiet_ret].
    destruct (CalendarClient.calendars E [c]); [apply quiet_reject|].
    apply quiet_bind; [apply quiet_emit; reflexivity|]. intros _.
    apply quiet_catch.
    + apply quiet_bind; [apply quiet_callAdapter|]. intros; apply quiet_ret.
    + intros; apply quiet_ret.
  - intros [[updated|] ok_]; [|apply quiet_ret].
    destruct (truthyPayload updated); [|apply quiet_ret].
    apply quiet_bind; [apply quiet_ret|]. intros; apply quiet_ret.
Qed.

Lemma createVideoEvent_quiet (E : Env) (this : EventManager.t) :
  quiet (EventManager.createVideoEvent E this).
Proof.
  unfold EventManager.createVideoEvent.
  apply quiet_bind; [apply quiet_gets|]. intros ev.
  destruct (EventManager.getVideoCredential this ev); [|apply quiet_reject].
  apply quiet_bind; [apply quiet_emit; reflexivity|]. intros; apply quiet_await.
Qed.

Lemma updateVideoEvent_quiet (E : Env) (this : EventManager.t)
  (booking : PartialBooking) :
  quiet (EventManager.updateVideoEvent E this booking).
Proof.
  unfold EventManager.updateVideoEvent.
  apply quiet_bind; [apply quiet_gets|]. intros ev.
  destruct (EventManager.getVideoCredential this ev); [|apply quiet_reject].
  apply quiet_bind; [apply quiet_emit; reflexivity|]. intros _.
  apply quiet_bind; [apply quiet_await|]. intros rv.
  destruct (er_videoCallData rv); [apply quiet_ret|].
  apply quiet_bind; [apply quiet_await|]. intros; apply quiet_ret.
Qed.

Lemma truthyFlag_Some (b : option bool) : truthyFlag b = true -> b = Some true.
Proof. destruct b as [[|]|]; cbn; congruence. Qed.

(** X3. A create or an update whose location is a dedicated integration sends
    no mail of its own, neither to the organizer nor to the attendee, whatever
    the providers answer and whether it resolves or rejects. *)
Theorem X3_dedicated_sends_no_mail (E : Env) (this : EventManager.t)
  (rescheduleUid : string) (st : Store) :
  truthyFlag (EventManager.isDedicatedFor (location (calEvent st))) = true ->
  mailsSent (effects (storeAfter (EventManager.create E this) st)) =
    mailsSent (effects st)
  /\ mailsSent (effects (storeAfter (EventManager.update E this rescheduleUid) st)) =
       mailsSent (effects st).
Proof.
  intros Hd. apply truthyFlag_Some in Hd.
  assert (Hd' : EventManager.isDedicatedFor
                  (location (EventManager.processLocation E (calEvent st)))
                = Some true) by (rewrite processLocation_location; exact Hd).
  unfold storeAfter. split.
  - unfold EventManager.create.
    unfold bind at 1. unfold updateCalEvent at 1, modify at 1. cbn beta iota.
    unfold bind at 1. unfold gets at 1. cbn beta iota. cbn [calEvent].
    rewrite Hd'. cbn [truthyFlag].
    match goal with |- mailsSent (effects (fst (?m ?s))) = _ =>
      assert (Hq : quiet m); [|exact (Hq s)] end.
    apply quiet_bind.
    + unfold EventManager.createAllCalendarEvents.
      destruct (EventManager.calendarCredentials this); [apply quiet_ret|].
      apply quiet_bind; [apply createEvent_quiet; reflexivity|].
      intros; apply quiet_ret.
    + intros rs. apply quiet_bind; [|intros; apply quiet_ret].
      apply quiet_bind; [apply createVideoEvent_quiet|]. intros rv.
      apply quiet_bind; [|intros; apply quiet_ret].
      destruct (er_videoCallData rv);
        [apply quiet_updateCalEvent|apply quiet_ret].
  - unfold EventManager.update.
    unfold bind at 1. unfold updateCalEvent at 1, modify at 1. cbn beta iota.
    match goal with |- mailsSent (effects (fst (?m ?s))) = _ =>
      assert (Hq : forall s0, calEvent s0 = calEvent s ->
                     mailsSent (effects (fst (m s0))) = mailsSent (effects s0));
        [|exact (Hq s eq_refl)] end.
    intros s0 Hs0. cbn [calEvent] in Hs0.
    unfold bind at 1.
    destruct (negb (truthyString rescheduleUid)); [reflexivity|].
    unfold ret at 1. cbn beta iota.
    unfold bind at 1. unfold await at 1.
    destruct (booking_findFirst (prisma E) rescheduleUid) as [[booking|]|r];
      try reflexivity.
    cbn beta iota.
    unfold bind at 1. unfold gets at 1. cbn beta iota.
    rewrite Hs0, Hd'. cbn [truthyFlag].
    match goal with |- mailsSent (effects (fst (?m ?s))) = _ =>
      assert (Hq : quiet m); [|exact (Hq s)] end.
    apply quiet_bind.
    + unfold EventManager.updateAllCalendarEvents. apply quiet_mapLimit.
      intros c. apply updateEvent_quiet. reflexivity.
    + intros rs. apply quiet_bind.
      * apply quiet_bind; [apply updateVideoEvent_quiet|]. intros rv.
        apply quiet_bind; [|intros; apply quiet_ret].
        destruct (er_videoCallData rv);
          [apply quiet_updateCalEvent|apply quiet_ret].
      * intros rs'.
        apply quiet_bind; [apply quiet_emit; reflexivity|]. intros _.
        apply quiet_bind; [apply quiet_emit; reflexivity|]. intros _.
        apply quiet_bind; [apply quiet_emit; reflexivity|]. intros _.
        apply quiet_bind; [apply quiet_await|]. intros; apply quiet_ret.
Qed.

Lemma X3_witness :
  mailsSent
    (effects (storeAfter
                (EventManager.create Sample.envUp
                   (EventManager.constructor Sample.envUp
                      [Sample.googleCredential; Sample.zoomCredential]))
                (Sample.store (Defined "integrations:zoom")))) =
  mailsSent (effects (Sample.store (Defined "integrations:zoom"))).
Proof.
  apply (proj1 (X3_dedicated_sends_no_mail Sample.envUp
                  (EventManager.constructor Sample.envUp
                     [Sample.googleCredential; Sample.zoomCredential])
                  "booking-uid"
                  (Sample.store (Defined "integrations:zoom")) eq_refl)).
Defined.

(** *** Mails of a plain calendar booking *)

Lemma sendAttendeeMail_run (E : Env) (type : EventManager.MailType)
  (rs : list EventResult) (st : Store) :
  EventManager.sendAttendeeMail E type rs st =
  if isEmpty rs || negb (existsb EventManager.disablesConfirmationEmail rs) then
    ({| calEvent :=
          set_additionInformation
            (Some match rs with
                  | first :: _ =>
                      match createdEvent first with
                      | Some e => CalendarClient.metadataOf e
                      | None => emptyMetadata
                      end
                  | [] => emptyMetadata
                  end)
            (calEvent st);
        effects :=
          effects st ++
            [SendEmail match type with
                       | EventManager.reschedule => EventAttendeeRescheduledMail
                       | EventManager.new => EventAttendeeMail
                       end] |},
     Resolved tt)
  else (st, Resolved tt).
Proof.
  unfold EventManager.sendAttendeeMail.
  destruct (isEmpty rs || negb (existsb EventManager.disablesConfirmationEmail rs));
    [|reflexivity].
  unfold bind, updateCalEvent, modify. cbn beta iota.
  rewrite trySendEmail_run. reflexivity.
Qed.

Lemma create_plain_run (E : Env) (this : EventManager.t) (st : Store)
  (c : Credential) (others : list Credential)
  (adapter : Adapter.t) (rest : list Adapter.t) :
  truthyFlag (EventManager.isDedicatedFor (location (calEvent st))) = false ->
  EventManager.calendarCredentials this = c :: others ->
  CalendarClient.calendars E [c] = adapter :: rest ->
  EventManager.create E this st =
  let st1 := {| calEvent := EventManager.processLocation E (calEvent st);
                effects := effects st |} in
  let noMail := EventManager.isDedicatedFor (location (calEvent st)) in
  let (st2, p) := CalendarClient.createEvent E c noMail st1 in
  match p with
  | Resolved r =>
      let (st3, _) := EventManager.sendAttendeeMail E EventManager.new [r] st2 in
      (st3, Resolved {| results := [r];
                        referencesToCreate := [EventManager.referenceOf r] |})
  | Rejected e => (st2, Rejected e)
  end.
Proof.
  intros Hd Hc Ha. unfold EventManager.create, EventManager.createAllCalendarEvents.
  rewrite Hc.
  unfold bind at 1. unfold updateCalEvent at 1, modify at 1. cbn beta iota.
  unfold bind at 1. unfold gets at 1. cbn beta iota. cbn [calEvent].
  rewrite processLocation_location, Hd.
  unfold bind at 1. unfold bind at 1. cbn zeta.
  destruct (CalendarClient.createEvent E c _ _) as [st2 [r|e]]; [|reflexivity].
  unfold ret at 1. cbn beta iota.
  unfold bind at 1. unfold bind at 1.
  rewrite sendAttendeeMail_run.
  destruct (isEmpty [r] || _); reflexivity.
Qed.

(** X4. A create for a location that is not a dedicated integration, whose
    first calendar credential has an adapter, sends: after a provider success
    the organizer mail and then the attendee mail, the latter left out when the
    created event disables the confirmation mail; after a provider failure the
    attendee mail alone. *)
Theorem X4_plain_create_mails (E : Env) (this : EventManager.t) (st : Store)
  (c : Credential) (others : list Credential)
  (adapter : Adapter.t) (rest : list Adapter.t) :
  truthyFlag (EventManager.isDedicatedFor (location (calEvent st))) = false ->
  EventManager.calendarCredentials this = c :: others ->
  CalendarClient.calendars E [c] = adapter :: rest ->
  mailsSent (effects (storeAfter (EventManager.create E this) st)) =
  mailsSent (effects st) ++
    match snd (Adapter.createEvent adapter
                 (asRichEventPlain (modules E)
                    (EventManager.processLocation E (calEvent st)))
                 (cred_key (Adapter.self adapter))) with
    | Resolved created =>
        EventOrganizerMail ::
          (if truthyFlag (disableConfirmationEmail created) then []
           else [EventAttendeeMail])
    | Rejected _ => [EventAttendeeMail]
    end.
Proof.
  intros Hd Hc Ha. unfold storeAfter.
  rewrite (create_plain_run E this st c others adapter rest Hd Hc Ha). cbn zeta.
  rewrite (createEvent_run E c _ _ adapter rest Ha). cbn [calEvent effects].
  rewrite Hd. cbn [negb].
  destruct (snd (Adapter.createEvent adapter _ _)) as [created|err].
  - rewrite sendAttendeeMail_run. cbn [isEmpty existsb orb].
    unfold EventManager.disablesConfirmationEmail at 1. cbn [createdResult createdEvent].
    destruct (truthyFlag (disableConfirmationEmail created)); cbn;
      rewrite ?mailsSent_app; cbn; rewrite ?app_nil_r; try reflexivity.
    rewrite <- app_assoc. reflexivity.
  - rewrite sendAttendeeMail_run. cbn.
    rewrite !mailsSent_app. cbn. rewrite app_nil_r. reflexivity.
Qed.

Lemma X4_witness :
  mailsSent
    (effects (storeAfter
                (EventManager.create Sample.envUp
                   (EventManager.constructor Sample.envUp [Sample.googleCredential]))
                (Sample.store (Defined "Berlin")))) =
  [EventOrganizerMail; EventAttendeeMail].
Proof.
  exact (X4_plain_create_mails Sample.envUp
           (EventManager.constructor Sample.envUp [Sample.googleCredential])
           (Sample.store (Defined "Berlin")) Sample.googleCredential []
           (GoogleCalendar.adapter Sample.envUp Sample.googleCredential) []
           eq_refl eq_refl eq_refl).
Defined.

Lemma office_createEvent_flag (E : Env) (c : Credential) (event : CalendarEvent)
  (key : OAuthKey) (created : Event) :
  snd (MicrosoftOffice365Calendar.createEvent E c event key) = Resolved created ->
  disableConfirmationEmail created = Some true.
Proof.
  unfold MicrosoftOffice365Calendar.createEvent, bind.
  destruct (o365Auth_getToken E c key) as [k1 [tok|r]]; [|discriminate].
  unfold await. destruct (me_events_post (graph E) tok event) as [resp|r];
    [|discriminate].
  destruct (handleErrorsJson resp) as [b|r]; [|discriminate].
  cbn. intros H. inversion H. reflexivity.
Qed.

(** X5. When the first calendar credential is an Office365 one, a create for a
    location that is not a dedicated integration resolves with one result,
    which follows the answer of the Office365 adapter. When the adapter
    resolves, the result has [success] true and the organizer mail is the only
    mail: the event the adapter returns always disables the confirmation mail,
    so the attendee mail is never sent after the calendar accepted the event.
    When the adapter rejects, the result has [success] false and the attendee
    mail is the only mail. *)
Theorem X5_office_suppresses_attendee_mail (E : Env) (this : EventManager.t)
  (st : Store) (c : Credential) (others : list Credential) :
  truthyFlag (EventManager.isDedicatedFor (location (calEvent st))) = false ->
  EventManager.calendarCredentials this = c :: others ->
  cred_type c = "office365_calendar" ->
  match snd (MicrosoftOffice365Calendar.createEvent E c
               (asRichEventPlain (modules E)
                  (EventManager.processLocation E (calEvent st)))
               (cred_key c)) with
  | Resolved created =>
      (exists r,
          outcome (EventManager.create E this) st =
            Resolved {| results := [r];
                        referencesToCreate := [EventManager.referenceOf r] |}
          /\ success r = true /\ createdEvent r = Some created)
      /\ mailsSent (effects (storeAfter (EventManager.create E this) st)) =
           mailsSent (effects st) ++ [EventOrganizerMail]
  | Rejected _ =>
      (exists r,
          outcome (EventManager.create E this) st =
            Resolved {| results := [r];
                        referencesToCreate := [EventManager.referenceOf r] |}
          /\ success r = false /\ createdEvent r = None)
      /\ mailsSent (effects (storeAfter (EventManager.create E this) st)) =
           mailsSent (effects st) ++ [EventAttendeeMail]
  end.
Proof.
  intros Hd Hc Ht.
  pose proof (calendars_office E c Ht) as Ha.
  pose proof (Hplain := create_plain_run E this st c others _ _ Hd Hc Ha).
  unfold outcome, storeAfter. rewrite Hplain. cbn zeta.
  rewrite (createEvent_run E c _ _ _ _ Ha). cbn [calEvent effects].
  rewrite Hd. cbn [negb].
  cbn [Adapter.createEvent Adapter.self MicrosoftOffice365Calendar.adapter].
  destruct (snd (MicrosoftOffice365Calendar.createEvent E c _ _))
    as [created|err] eqn:Hcr.
  - apply office_createEvent_flag in Hcr.
    rewrite sendAttendeeMail_run. cbn [isEmpty existsb orb].
    unfold EventManager.disablesConfirmationEmail.
    cbn [createdResult createdEvent]. rewrite Hcr. cbn.
    split; [eexists; repeat split; reflexivity|].
    rewrite !mailsSent_app. cbn. rewrite app_nil_r. reflexivity.
  - rewrite sendAttendeeMail_run. cbn.
    split; [eexists; repeat split; reflexivity|].
    rewrite !mailsSent_app. cbn. rewrite app_nil_r. reflexivity.
Qed.

Lemma X5_witness :
  (exists r,
      outcome (EventManager.create Sample.envUp
                 (EventManager.constructor Sample.envUp [Sample.officeCredential]))
        (Sample.store (Defined "Berlin")) =
        Resolved {| results := [r];
                    referencesToCreate := [EventManager.referenceOf r] |}
      /\ success r = true
      /\ createdEvent r =
           Some {| ev_name := ev_name (Sample.providerEvent "office-1");
                   ev_id := ev_id (Sample.providerEvent "office-1");
                   disableConfirmationEmail := Some true;
                   ev_conferenceData :=
                     ev_conferenceData (Sample.providerEvent "office-1");
                   ev_entryPoints := ev_entryPoints (Sample.providerEvent "office-1");
                   ev_hangoutLink := ev_hangoutLink (Sample.providerEvent "office-1") |})
  /\ mailsSent
       (effects (storeAfter
                   (EventManager.create Sample.envUp
                      (EventManager.constructor Sample.envUp
                         [Sample.officeCredential]))
                   (Sample.store (Defined "Berlin")))) =
     mailsSent (effects (Sample.store (Defined "Berlin"))) ++ [EventOrganizerMail].
Proof.
  exact (X5_office_suppresses_attendee_mail Sample.envUp
           (EventManager.constructor Sample.envUp [Sample.officeCredential])
           (Sample.store (Defined "Berlin")) Sample.officeCredential []
           eq_refl eq_refl eq_refl).
Defined.

(** *** The video leg of a dedicated create *)

Lemma getVideoCredential_location (this : EventManager.t) (e e' : CalendarEvent) :
  location e = location e' ->
  EventManager.getVideoCredential this e = EventManager.getVideoCredential this e'.
Proof.
  intros H. unfold EventManager.getVideoCredential. rewrite H. reflexivity.
Qed.

(** X6. A create for a dedicated integration for which no video credential
    matches rejects with the "no suitable credentials" message, and it does so
    after calendar dispatch: the first calendar's adapter has been called, and
    nothing takes that call back. No mail is sent and the video client is not
    called. *)
Theorem X6_no_suitable_credentials (E : Env) (this : EventManager.t) (st : Store)
  (c : Credential) (others : list Credential) :
  truthyFlag (EventManager.isDedicatedFor (location (calEvent st))) = true ->
  EventManager.getVideoCredential this (calEvent st) = None ->
  EventManager.calendarCredentials this = c :: others ->
  hasAdapter E c = true ->
  outcome (EventManager.create E this) st
    = Rejected EventManager.noSuitableCredentials
  /\ effects (storeAfter (EventManager.create E this) st)
     = effects st ++ [CalendarCreateEvent c].
Proof.
  intros Hd Hv Hc Hk. apply truthyFlag_Some in Hd.
  destruct (hasAdapter_calendars E c Hk) as (adapter & rest & Ha).
  enough (Hrun : exists ev',
             EventManager.create E this st =
             ({| calEvent := ev'; effects := effects st ++ [CalendarCreateEvent c] |},
              Rejected EventManager.noSuitableCredentials)).
  { destruct Hrun as [ev' Hrun]. unfold outcome, storeAfter. rewrite Hrun.
    split; reflexivity. }
  unfold EventManager.create, EventManager.createAllCalendarEvents.
  rewrite Hc.
  unfold bind at 1. unfold updateCalEvent at 1, modify at 1. cbn beta iota.
  unfold bind at 1. unfold gets at 1. cbn beta iota. cbn [calEvent].
  rewrite processLocation_location, Hd. cbn [truthyFlag].
  unfold bind at 1. unfold bind at 1.
  rewrite (createEvent_run E c _ _ adapter rest Ha).
  cbn [calEvent effects truthyFlag negb].
  assert (Hnone : forall e, location e = location (calEvent st) ->
                            EventManager.getVideoCredential this e = None).
  { intros e He. rewrite <- Hv. now apply getVideoCredential_location. }
  destruct (snd (Adapter.createEvent adapter _ _)) as [created|err];
    unfold ret at 1; cbn beta iota;
    unfold bind at 1; unfold bind at 1;
    unfold EventManager.createVideoEvent, bind at 1; unfold gets at 1;
    cbn beta iota; cbn [calEvent];
    rewrite Hnone by (cbn; apply processLocation_location);
    cbn; rewrite ?app_nil_r; eexists; reflexivity.
Qed.

Lemma X6_witness :
  outcome (EventManager.create Sample.envUp
             (EventManager.constructor Sample.envUp [Sample.googleCredential]))
    (Sample.store (Defined "integrations:zoom"))
    = Rejected EventManager.noSuitableCredentials
  /\ effects (storeAfter
                (EventManager.create Sample.envUp
                   (EventManager.constructor Sample.envUp [Sample.googleCredential]))
                (Sample.store (Defined "integrations:zoom")))
     = effects (Sample.store (Defined "integrations:zoom")) ++
         [CalendarCreateEvent Sample.googleCredential].
Proof.
  exact (X6_no_suitable_credentials Sample.envUp
           (EventManager.constructor Sample.envUp [Sample.googleCredential])
           (Sample.store (Defined "integrations:zoom")) Sample.googleCredential []
           eq_refl eq_refl eq_refl eq_refl).
Defined.





(** *** Update: guards, clean-up and the rescheduled mail *)

(** X8. An update without a reschedule uid, or for a uid the database has no
    booking for, rejects with the matching error before any provider, mail or
    deletion call; the event has already been enriched with its location
    request by then. *)
Theorem X8_update_guards (E : Env) (this : EventManager.t) (rescheduleUid : string)
  (st : Store) :
  (truthyString rescheduleUid = false ->
   EventManager.update E this rescheduleUid st =
     ({| calEvent := EventManager.processLocation E (calEvent st);
         effects := effects st |},
      Rejected updateWithoutUid))
  /\ (truthyString rescheduleUid = true ->
      booking_findFirst (prisma E) rescheduleUid = Resolved None ->
      EventManager.update E this rescheduleUid st =
        ({| calEvent := EventManager.processLocation E (calEvent st);
            effects := effects st |},
         Rejected (JsError "booking not found"))).
Proof.
  split.
  - intros Hu. unfold EventManager.update. rewrite Hu. reflexivity.
  - intros Hu Hb. unfold EventManager.update. rewrite Hu.
    unfold bind, updateCalEvent, modify, ret, await. cbn beta iota.
    rewrite Hb. reflexivity.
Qed.

Lemma X8_witness :
  EventManager.update Sample.envUp
    (EventManager.constructor Sample.envUp [Sample.googleCredential])
    "booking-uid" (Sample.store (Defined "integrations:zoom")) =
  ({| calEvent :=
        EventManager.processLocation Sample.envUp
          (calEvent (Sample.store (Defined "integrations:zoom")));
      effects := effects (Sample.store (Defined "integrations:zoom")) |},
   Rejected (JsError "booking not found")).
Proof.
  exact (proj2 (X8_update_guards Sample.envUp
                  (EventManager.constructor Sample.envUp [Sample.googleCredential])
                  "booking-uid" (Sample.store (Defined "integrations:zoom")))
           eq_refl eq_refl).
Defined.

Lemma all_three_resolved {A} (a b c : Promise A) (l : list A) :
  all [a; b; c] = Resolved l ->
  isResolved a = true /\ isResolved b = true /\ isResolved c = true.
Proof.
  cbn. destruct a, b, c; cbn; intros H; try discriminate; auto.
Qed.

(** X9. When an update resolves, the booking was found, all three deletions
    (references, attendees, booking) resolved and are the last outside calls
    of the request, and [referencesToCreate] is the list of references of the
    old booking, whatever the new results are. *)
Theorem X9_update_resolved (E : Env) (this : EventManager.t) (rescheduleUid : string)
  (st : Store) (r : CreateUpdateResult) :
  outcome (EventManager.update E this rescheduleUid) st = Resolved r ->
  exists booking,
    booking_findFirst (prisma E) rescheduleUid = Resolved (Some booking)
    /\ referencesToCreate r = references booking
    /\ isResolved (bookingReference_deleteMany (prisma E) (booking_id booking)) = true
    /\ isResolved (attendee_deleteMany (prisma E) (booking_id booking)) = true
    /\ isResolved (booking_delete (prisma E) (booking_id booking)) = true
    /\ exists before,
         effects (storeAfter (EventManager.update E this rescheduleUid) st) =
         before ++ [BookingReferenceDeleteMany (booking_id booking);
                    AttendeeDeleteMany (booking_id booking);
                    BookingDelete (booking_id booking)].
Proof.
  unfold outcome, storeAfter. intros Hr.
  destruct (EventManager.update E this rescheduleUid st) as [st' p] eqn:Hc.
  cbn in Hr. subst p. cbn [fst].
  unfold EventManager.update in Hc.
  apply bind_resolved in Hc. destruct Hc as ([] & s1 & _ & Hc).
  apply bind_resolved in Hc. destruct Hc as ([] & s2 & _ & Hc).
  apply bind_resolved in Hc. destruct Hc as (found & s3 & H3 & Hc).
  unfold await in H3. inversion H3. subst s3. clear H3.
  destruct found as [booking|]; [|discriminate].
  exists booking. split; [assumption|].
  apply bind_resolved in Hc. destruct Hc as (evt & s4 & _ & Hc).
  apply bind_resolved in Hc. destruct Hc as (rs0 & s5 & _ & Hc).
  apply bind_resolved in Hc. destruct Hc as (rs & s6 & _ & Hc).
  apply bind_resolved in Hc. destruct Hc as ([] & s7 & H7 & Hc).
  apply bind_resolved in Hc. destruct Hc as ([] & s8 & H8 & Hc).
  apply bind_resolved in Hc. destruct Hc as ([] & s9 & H9 & Hc).
  apply bind_resolved in Hc. destruct Hc as (done & s10 & H10 & Hc).
  unfold ret in Hc. inversion Hc. subst st' r. clear Hc.
  unfold await in H10.
  pose proof (f_equal snd H10) as Hall. cbn [snd] in Hall.
  pose proof (f_equal fst H10) as Hs. cbn [fst] in Hs. subst s10. clear H10.
  apply all_three_resolved in Hall. destruct Hall as (Ha & Hb & Hd).
  split; [reflexivity|]. repeat (split; [assumption|]).
  unfold emit, modify in H7, H8, H9.
  inversion H7. inversion H8. inversion H9. subst s7 s8 s9. cbn.
  exists (effects s6). rewrite <- !app_assoc. reflexivity.
Qed.

Lemma X9_witness :
  exists r,
    outcome (EventManager.update
               (Sample.env Sample.googleUp Sample.graphUp
                  (Some Sample.twoCalendarBooking))
               (EventManager.constructor Sample.envUp
                  [Sample.googleCredential; Sample.officeCredential])
               "booking-uid") (Sample.store (Defined "Berlin")) = Resolved r
    /\ exists booking,
         booking_findFirst
           (prisma (Sample.env Sample.googleUp Sample.graphUp
                      (Some Sample.twoCalendarBooking))) "booking-uid"
         = Resolved (Some booking)
         /\ referencesToCreate r = references booking.
Proof.
  eexists. split; [vm_compute; reflexivity|].
  destruct (X9_update_resolved
              (Sample.env Sample.googleUp Sample.graphUp
                 (Some Sample.twoCalendarBooking))
              (EventManager.constructor Sample.envUp
                 [Sample.googleCredential; Sample.officeCredential])
              "booking-uid" (Sample.store (Defined "Berlin")) _ eq_refl)
    as (booking & Hb & Hrefs & _).
  exists booking. split; [exact Hb|exact Hrefs].
Defined.

Lemma mapLimit_Forall {S A B} (f : A -> SP S B) (P : B -> Prop) (xs : list A) :
  (forall x s r, snd (f x s) = Resolved r -> P r) ->
  forall s ys, snd (mapLimit f xs s) = Resolved ys -> Forall P ys.
Proof.
  intros Hf. induction xs as [|x rest IH]; intros s ys; cbn.
  - intros H. inversion H. constructor.
  - specialize (Hf x s). destruct (f x s) as [s1 p]. cbn in Hf.
    specialize (IH s1). destruct (mapLimit f rest s1) as [s2 ps]. cbn in *.
    destruct p as [y|e]; [|discriminate].
    destruct ps as [ys'|e]; [|discriminate].
    intros H. inversion H. constructor; auto.
Qed.

(** X10. In an update for a location that is not a dedicated integration,
    when no result disables the confirmation mail, the rescheduled attendee
    mail is sent and the event's addition-information is reset to an empty
    record before it: update results carry no created event, so the links of
    the rescheduled event are never passed on to the attendee mail. *)
Theorem X10_reschedule_mail_metadata (E : Env) (this : EventManager.t)
  (rescheduleUid : string) (st : Store) (r : CreateUpdateResult) :
  truthyFlag (EventManager.isDedicatedFor (location (calEvent st))) = false ->
  outcome (EventManager.update E this rescheduleUid) st = Resolved r ->
  existsb EventManager.disablesConfirmationEmail (results r) = false ->
  additionInformation
    (calEvent (storeAfter (EventManager.update E this rescheduleUid) st))
  = Some emptyMetadata
  /\ exists before,
       mailsSent
         (effects (storeAfter (EventManager.update E this rescheduleUid) st))
       = before ++ [EventAttendeeRescheduledMail].
Proof.
  unfold outcome, storeAfter. intros Hd Hr Hdis.
  destruct (EventManager.update E this rescheduleUid st) as [st' p] eqn:Hc.
  cbn in Hr. subst p. cbn [fst].
  unfold EventManager.update in Hc.
  apply bind_resolved in Hc. destruct Hc as ([] & s1 & H1 & Hc).
  unfold updateCalEvent, modify in H1. inversion H1. subst s1. clear H1.
  apply bind_resolved in Hc. destruct Hc as ([] & s2 & H2 & Hc).
  assert (s2 = {| calEvent := EventManager.processLocation E (calEvent st);
                  effects := effects st |}) as ->.
  { destruct (negb (truthyString rescheduleUid)); [discriminate|].
    unfold ret in H2. now inversion H2. }
  clear H2.
  apply bind_resolved in Hc. destruct Hc as (found & s3 & H3 & Hc).
  unfold await in H3. inversion H3. subst s3. clear H3.
  destruct found as [booking|]; [|discriminate].
  apply bind_resolved in Hc. destruct Hc as (evt & s4 & H4 & Hc).
  unfold gets in H4. inversion H4. subst s4 evt. clear H4. cbn [calEvent] in Hc.
  rewrite processLocation_location, Hd in Hc.
  apply bind_resolved in Hc. destruct Hc as (rs0 & s5 & H5 & Hc).
  apply bind_resolved in Hc. destruct Hc as (rs & s6 & H6 & Hc).
  apply bind_resolved in Hc. destruct Hc as ([] & s7 & H7 & Hc).
  apply bind_resolved in Hc. destruct Hc as ([] & s8 & H8 & Hc).
  apply bind_resolved in Hc. destruct Hc as ([] & s9 & H9 & Hc).
  apply bind_resolved in Hc. destruct Hc as (done & s10 & H10 & Hc).
  unfold ret in Hc. inversion Hc. subst st' r. clear Hc. cbn [results] in Hdis.
  unfold await in H10. pose proof (f_equal fst H10) as Hs. cbn in Hs. subst s10.
  unfold emit, modify in H7, H8, H9.
  inversion H7. inversion H8. inversion H9. subst s7 s8 s9. cbn.
  apply bind_resolved in H6. destruct H6 as ([] & s11 & H11 & H6).
  unfold ret in H6. inversion H6. subst s11 rs0. clear H6.
  rewrite sendAttendeeMail_run, Hdis in H11. rewrite orb_true_r in H11.
  inversion H11. subst s6. cbn. clear H11.
  assert (Hnone : Forall (fun x => createdEvent x = None) rs).
  { unfold EventManager.updateAllCalendarEvents in H5.
    eapply mapLimit_Forall; [|rewrite H5; reflexivity].
    intros c s x Hx. cbn beta in Hx.
    apply updateEvent_result in Hx. tauto. }
  split.
  - destruct rs as [|first rest]; [reflexivity|].
    inversion Hnone as [|? ? Hfirst _]. rewrite Hfirst. reflexivity.
  - exists (mailsSent (effects s5)).
    rewrite !mailsSent_app. cbn. rewrite !app_nil_r. reflexivity.
Qed.

Lemma X10_witness :
  additionInformation
    (calEvent (storeAfter
                 (EventManager.update
                    (Sample.env Sample.googleUp Sample.graphUp
                       (Some Sample.twoCalendarBooking))
                    (EventManager.constructor Sample.envUp [Sample.googleCredential])
                    "booking-uid")
                 (Sample.store (Defined "Berlin"))))
  = Some emptyMetadata
  /\ exists before,
       mailsSent
         (effects (storeAfter
                     (EventManager.update
                        (Sample.env Sample.googleUp Sample.graphUp
                           (Some Sample.twoCalendarBooking))
                        (EventManager.constructor Sample.envUp
                           [Sample.googleCredential])
                        "booking-uid")
                     (Sample.store (Defined "Berlin"))))
       = before ++ [EventAttendeeRescheduledMail].
Proof.
  apply (X10_reschedule_mail_metadata
           (Sample.env Sample.googleUp Sample.graphUp
              (Some Sample.twoCalendarBooking))
           (EventManager.constructor Sample.envUp [Sample.googleCredential])
           "booking-uid" (Sample.store (Defined "Berlin"))
           {| results :=
                [updatedResult Sample.envUp Sample.googleCredential
                   (Sample.store (Defined "Berlin")) true
                   (Some (UpdatedData (Sample.providerEvent "google-1")))];
              referencesToCreate := references Sample.twoCalendarBooking |}).
  - reflexivity.
  - vm_compute. reflexivity.
  - reflexivity.
Defined.

(** *** The mailer's failures never reach the booking *)

Lemma bind_ext {S A B} (m m' : SP S A) (k k' : A -> SP S B) :
  (forall s, m s = m' s) -> (forall a s, k a s = k' a s) ->
  forall s, bind m k s = bind m' k' s.
Proof.
  intros Hm Hk s. unfold bind. rewrite Hm.
  destruct (m' s) as [s1 [a|r]]; [apply Hk|reflexivity].
Qed.

Lemma mapLimit_ext {S A B} (f f' : A -> SP S B) (xs : list A) :
  (forall x s, f x s = f' x s) ->
  forall s, mapLimit f xs s = mapLimit f' xs s.
Proof.
  intros Hf. induction xs as [|x rest IH]; intros s; cbn; [reflexivity|].
  rewrite Hf. destruct (f' x s) as [s1 p]. rewrite IH. reflexivity.
Qed.

Lemma calendars_withSendEmail (E : Env) (send : Mail -> Promise unit)
  (creds : list Credential) :
  CalendarClient.calendars (withSendEmail E send) creds =
  CalendarClient.calendars E creds.
Proof. reflexivity. Qed.

Lemma createEvent_withSendEmail (E : Env) (send : Mail -> Promise unit)
  (c : Credential) (noMail : option bool) (st : Store) :
  CalendarClient.createEvent (withSendEmail E send) c noMail st =
  CalendarClient.createEvent E c noMail st.
Proof.
  destruct (CalendarClient.calendars E [c]) as [|adapter rest] eqn:Ha.
  - unfold CalendarClient.createEvent.
    rewrite calendars_withSendEmail, Ha. reflexivity.
  - rewrite (createEvent_run (withSendEmail E send) c noMail st adapter rest)
      by (rewrite calendars_withSendEmail; exact Ha).
    rewrite (createEvent_run E c noMail st adapter rest Ha). reflexivity.
Qed.

Lemma updateEvent_withSendEmail (E : Env) (send : Mail -> Promise unit)
  (c : Credential) (noMail : option bool) (bookingRefUid : Nullable string)
  (st : Store) :
  CalendarClient.updateEvent (withSendEmail E send) c noMail bookingRefUid st =
  CalendarClient.updateEvent E c noMail bookingRefUid st.
Proof.
  destruct (truthy bookingRefUid) eqn:Hu.
  - destruct bookingRefUid as [| |refUid]; try discriminate. cbn in Hu.
    destruct (CalendarClient.calendars E [c]) as [|adapter rest] eqn:Ha.
    + unfold CalendarClient.updateEvent.
      rewrite Hu, calendars_withSendEmail, Ha. reflexivity.
    + rewrite (updateEvent_run (withSendEmail E send) c noMail refUid st adapter rest Hu)
        by (rewrite calendars_withSendEmail; exact Ha).
      rewrite (updateEvent_run E c noMail refUid st adapter rest Hu Ha).
      reflexivity.
  - rewrite !updateEvent_skipped by exact Hu. reflexivity.
Qed.

Lemma sendAttendeeMail_withSendEmail (E : Env) (send : Mail -> Promise unit)
  (type : EventManager.MailType) (rs : list EventResult) (st : Store) :
  EventManager.sendAttendeeMail (withSendEmail E send) type rs st =
  EventManager.sendAttendeeMail E type rs st.
Proof. rewrite !sendAttendeeMail_run. reflexivity. Qed.

(** X11. Whether sending a mail succeeds or fails changes nothing in a create
    or an update: with any other mailer in place of the environment's, both
    settle to the same value and leave the same event and the same trace of
    outside calls. *)
Theorem X11_mailer_never_affects_booking (E : Env) (send : Mail -> Promise unit)
  (this : EventManager.t) (rescheduleUid : string) (st : Store) :
  EventManager.create (withSendEmail E send) this st = EventManager.create E this st
  /\ EventManager.update (withSendEmail E send) this rescheduleUid st =
     EventManager.update E this rescheduleUid st.
Proof.
  split.
  - unfold EventManager.create.
    apply bind_ext; [reflexivity|]. intros _ s1.
    apply bind_ext; [reflexivity|]. intros evt s2.
    apply bind_ext.
    + intros s. unfold EventManager.createAllCalendarEvents.
      destruct (EventManager.calendarCredentials this); [reflexivity|].
      apply bind_ext; [|reflexivity].
      intros s'. apply createEvent_withSendEmail.
    + intros rs s3. apply bind_ext; [|reflexivity]. intros s.
      destruct (truthyFlag _); [reflexivity|].
      apply bind_ext; [|reflexivity].
      intros s'. apply sendAttendeeMail_withSendEmail.
  - unfold EventManager.update.
    apply bind_ext; [reflexivity|]. intros _ s1.
    apply bind_ext; [reflexivity|]. intros _ s2.
    apply bind_ext; [reflexivity|]. intros found s3.
    destruct found as [booking|]; [|reflexivity].
    apply bind_ext; [reflexivity|]. intros evt s4.
    apply bind_ext.
    + intros s. unfold EventManager.updateAllCalendarEvents.
      apply mapLimit_ext. intros c s'. apply updateEvent_withSendEmail.
    + intros rs s5. apply bind_ext; [|reflexivity]. intros s.
      destruct (truthyFlag _); [reflexivity|].
      apply bind_ext; [|reflexivity].
      intros s'. apply sendAttendeeMail_withSendEmail.
Qed.

(** *** Token refresh *)

(** X12. Office365: when the stored token is expired and the refresh exchange
    answers with a token of non-negative lifetime, the key holds the new token
    and an expiry of now plus the lifetime, whether or not persisting it
    works; the call itself resolves with the new token exactly when the
    database update resolves, and a following [getToken] answers from the key
    without another exchange. *)
Theorem X12_office_refresh_round_trip (E : Env) (c : Credential) (key : OAuthKey)
  (response : Response OAuthKey) (token : OAuthKey) :
  (expiry_date key <? epochSeconds E)%Z = true ->
  oauth2_token (graph E) (refresh_token key) = Resolved response ->
  handleErrorsJson response = Resolved token ->
  (0 <= expires_in token)%Z ->
  let key' := set_token (access_token token)
                (epochSeconds E + expires_in token)%Z key in
  fst (o365Auth_getToken E c key) = key'
  /\ snd (o365Auth_getToken E c key) =
       andThen (credential_update (prisma E) (cred_id c) key')
         (fun _ => Resolved (access_token token))
  /\ o365Auth_getToken E c key' = (key', Resolved (access_token token)).
Proof.
  intros Hexp Hresp Hbody Hpos key'.
  unfold o365Auth_getToken at 1 2. run_sp. rewrite Hexp. cbn.
  rewrite Hresp, Hbody. cbn. fold key'.
  split; [|split].
  - destruct (credential_update (prisma E) (cred_id c) key'); reflexivity.
  - destruct (credential_update (prisma E) (cred_id c) key'); reflexivity.
  - unfold o365Auth_getToken. run_sp. cbn.
    assert (Hfresh : (epochSeconds E + expires_in token <? epochSeconds E)%Z = false)
      by (apply Z.ltb_ge; lia).
    rewrite Hfresh. reflexivity.
Qed.

Lemma X12_witness :
  let key' := set_token (access_token Sample.freshToken)
                (epochSeconds Sample.envUp + expires_in Sample.freshToken)%Z
                Sample.key in
  fst (o365Auth_getToken Sample.envUp Sample.officeCredential Sample.key) = key'
  /\ snd (o365Auth_getToken Sample.envUp Sample.officeCredential Sample.key) =
       andThen (credential_update (prisma Sample.envUp)
                  (cred_id Sample.officeCredential) key')
         (fun _ => Resolved (access_token Sample.freshToken))
  /\ o365Auth_getToken Sample.envUp Sample.officeCredential key' =
       (key', Resolved (access_token Sample.freshToken)).
Proof.
  apply (X12_office_refresh_round_trip Sample.envUp Sample.officeCredential
           Sample.key (Sample.okResponse Sample.freshToken) Sample.freshToken).
  - reflexivity.
  - reflexivity.
  - reflexivity.
  - vm_compute. discriminate.
Defined.

(** X13. Zoom: the expiry kept after a refresh is in seconds (now in seconds
    plus the lifetime) while the expiry test compares it with the clock in
    milliseconds. So after a successful refresh the call resolves with the new
    token, and, the clock in milliseconds being beyond that number of seconds,
    the refreshed key is expired again at once: the next [getToken] goes back
    to the token endpoint. A failure to persist the answer rejects and leaves
    the key as it was. *)
Theorem X13_zoom_refresh_expired_again (E : Env) (c : Credential) (key : OAuthKey)
  (response : Response OAuthKey) (token : OAuthKey) :
  (expires_in key <? now (modules E))%Z = true ->
  zoom_oauth_token (zoom E) (refresh_token key) = Resolved response ->
  handleErrorsJson response = Resolved token ->
  (epochSeconds E + expires_in token < now (modules E))%Z ->
  (credential_update (prisma E) (cred_id c) token = Resolved tt ->
   zoomAuth_getToken E c key =
     (set_zoom_token (access_token token)
        (epochSeconds E + expires_in token)%Z key,
      Resolved (access_token token))
   /\ (expires_in (fst (zoomAuth_getToken E c key)) <? now (modules E))%Z = true)
  /\ (forall r,
         credential_update (prisma E) (cred_id c) token = Rejected r ->
         zoomAuth_getToken E c key = (key, Rejected r)).
Proof.
  intros Hexp Hresp Hbody Hclock. split.
  - intros Hup. unfold zoomAuth_getToken. run_sp. rewrite Hexp. cbn.
    rewrite Hresp, Hbody. cbn. rewrite Hup. cbn.
    split; [reflexivity|]. apply Z.ltb_lt. exact Hclock.
  - intros r Hup. unfold zoomAuth_getToken. run_sp. rewrite Hexp. cbn.
    rewrite Hresp, Hbody. cbn. rewrite Hup. reflexivity.
Qed.

Lemma X13_witness :
  zoomAuth_getToken Sample.envUp Sample.zoomCredential Sample.key =
    (set_zoom_token (access_token Sample.freshToken)
       (epochSeconds Sample.envUp + expires_in Sample.freshToken)%Z Sample.key,
     Resolved (access_token Sample.freshToken))
  /\ (expires_in (fst (zoomAuth_getToken Sample.envUp Sample.zoomCredential Sample.key))
        <? now (modules Sample.envUp))%Z = true.
Proof.
  apply (proj1 (X13_zoom_refresh_expired_again Sample.envUp Sample.zoomCredential
                  Sample.key (Sample.okResponse Sample.freshToken)
                  Sample.freshToken eq_refl eq_refl eq_refl eq_refl)).
  reflexivity.
Defined.

(** X14. Google: [getToken] never rejects and resolves with the client as it
    stands after the call. When the token is not expiring the key is
    unchanged; when the refresh exchange returns a token, the client holds its
    access token and expiry even if persisting the key fails; when the
    exchange fails, the client keeps the old key. *)
Theorem X14_google_getToken (E : Env) (c : Credential) (key : OAuthKey) :
  exists k',
    googleAuth_getToken E c key = (k', Resolved k')
    /\ (isTokenExpiring (google E) key = false -> k' = key)
    /\ (forall token,
          isTokenExpiring (google E) key = true ->
          refreshToken (google E) (refresh_token key) = Resolved (Some token) ->
          k' = set_token (access_token token) (expiry_date token) key)
    /\ (isTokenExpiring (google E) key = true ->
        (forall token,
            refreshToken (google E) (refresh_token key) <> Resolved (Some token)) ->
        k' = key).
Proof.
  unfold googleAuth_getToken. run_sp.
  destruct (isTokenExpiring (google E) key) eqn:Hexp; cbn.
  - destruct (refreshToken (google E) (refresh_token key)) as [[token|]|r] eqn:Hr;
      cbn.
    + destruct (credential_update (prisma E) _ _); cbn;
        (eexists; split; [reflexivity|]; split; [discriminate|]; split;
         [intros t _ Ht; inversion Ht; reflexivity
         |intros _ Hno; exfalso; exact (Hno token eq_refl)]).
    + eexists. split; [reflexivity|]. split; [discriminate|].
      split; [intros t _ Ht; discriminate|reflexivity].
    + eexists. split; [reflexivity|]. split; [discriminate|].
      split; [intros t _ Ht; discriminate|reflexivity].
  - eexists. split; [reflexivity|]. split; [reflexivity|].
    split; intros; discriminate.
Qed.

Lemma X14_witness :
  exists k',
    googleAuth_getToken
      (Sample.env Sample.googleRefreshRefused Sample.graphUp None)
      Sample.googleCredential Sample.key = (k', Resolved k')
    /\ k' = Sample.key.
Proof.
  destruct (X14_google_getToken
              (Sample.env Sample.googleRefreshRefused Sample.graphUp None)
              Sample.googleCredential Sample.key) as (k' & Hrun & _ & _ & Hstale).
  exists k'. split; [exact Hrun|].
  apply Hstale; [reflexivity|]. intros token H. discriminate H.
Defined.

(** *** Availability queries *)

(** X15. Google [getAvailability]: when calendars are selected but none of
    them is a Google calendar, it resolves with the empty list whatever the
    provider would answer; when Google calendars are selected, the free/busy
    query is made for exactly their ids, in the order selected, and the
    calendar list is not consulted. *)
Theorem X15_google_selection (E : Env) (c : Credential) (key : OAuthKey)
  (dateFrom dateTo : string) (selectedCalendars : list IntegrationCalendar) :
  (selectedCalendars <> [] ->
   filter (integrationIs GoogleCalendar.integrationType) selectedCalendars = [] ->
   snd (GoogleCalendar.getAvailability E c dateFrom dateTo selectedCalendars key)
   = Resolved [])
  /\ (filter (integrationIs GoogleCalendar.integrationType) selectedCalendars <> [] ->
      snd (GoogleCalendar.getAvailability E c dateFrom dateTo selectedCalendars key)
      = andThen
          (freebusy_query (google E) (fst (googleAuth_getToken E c key))
             dateFrom dateTo
             (map externalId
                (filter (integrationIs GoogleCalendar.integrationType)
                   selectedCalendars)))
          (fun calendars => Resolved (concat calendars))).
Proof.
  destruct (googleAuth_getToken_resolves E c key) as [k' Hk].
  split.
  - intros Hsel Hnone. unfold GoogleCalendar.getAvailability, bind at 1.
    rewrite Hk, Hnone. cbn.
    destruct selectedCalendars; [contradiction|reflexivity].
  - intros Hsome. unfold GoogleCalendar.getAvailability, bind at 1.
    rewrite Hk. cbn [fst].
    destruct (filter _ selectedCalendars) as [|x xs] eqn:Hf; [contradiction|].
    cbn [map isEmpty andb]. run_sp.
    destruct (freebusy_query _ _ _ _ _) as [cals|r]; cbn; [|reflexivity].
    rewrite flat_map_concat_map, map_id. reflexivity.
Qed.

Lemma X15_witness :
  snd (GoogleCalendar.getAvailability
         (Sample.env Sample.googleBusyRefused Sample.graphUp None)
         Sample.googleCredential "from" "to"
         [{| integration := Some "office365_calendar"; externalId := Some "cal-1";
             primary := None; cal_name := None |}] Sample.key)
  = Resolved [].
Proof.
  apply (proj1 (X15_google_selection
                  (Sample.env Sample.googleBusyRefused Sample.graphUp None)
                  Sample.googleCredential Sample.key "from" "to"
                  [{| integration := Some "office365_calendar";
                      externalId := Some "cal-1";
                      primary := None; cal_name := None |}])).
  - discriminate.
  - reflexivity.
Defined.

(** X16. Office365 [getAvailability] hides every error behind a rejection
    with an empty array. A failure rejects: a failed token (a failed refresh
    included) and, with a token that is not expired and Office365 calendars
    selected, a failed batch request or unreadable response each give a
    rejection whose reason is the empty array; and no rejection ever carries
    the error itself. With a token that is not expired and calendars selected
    of which none is an Office365 calendar with an id, it resolves with the
    empty list and leaves the key alone. *)
Theorem X16_office_availability (E : Env) (c : Credential) (key : OAuthKey)
  (dateFrom dateTo : string) (selectedCalendars : list IntegrationCalendar) :
  (forall r,
      snd (MicrosoftOffice365Calendar.getAvailability E c dateFrom dateTo
             selectedCalendars key) = Rejected r ->
      r = JsEmptyArray)
  /\ (forall r,
         snd (o365Auth_getToken E c key) = Rejected r ->
         snd (MicrosoftOffice365Calendar.getAvailability E c dateFrom dateTo
                selectedCalendars key) = Rejected JsEmptyArray)
  /\ (forall r,
         (expiry_date key <? epochSeconds E)%Z = false ->
         filterBoolean
           (map externalId
              (filter (integrationIs MicrosoftOffice365Calendar.integrationType)
                 selectedCalendars)) <> [] ->
         andThen
           (batch (graph E) (access_token key)
              (filterBoolean
                 (map externalId
                    (filter (integrationIs MicrosoftOffice365Calendar.integrationType)
                       selectedCalendars)))
              (String.append "?startdatetime="
                 (String.append (encodeURIComponent (modules E) dateFrom)
                    (String.append "&enddatetime="
                       (encodeURIComponent (modules E) dateTo)))))
           handleErrorsJson = Rejected r ->
         MicrosoftOffice365Calendar.getAvailability E c dateFrom dateTo
           selectedCalendars key = (key, Rejected JsEmptyArray))
  /\ ((expiry_date key <? epochSeconds E)%Z = false ->
      selectedCalendars <> [] ->
      filterBoolean
        (map externalId
           (filter (integrationIs MicrosoftOffice365Calendar.integrationType)
              selectedCalendars)) = [] ->
      MicrosoftOffice365Calendar.getAvailability E c dateFrom dateTo
        selectedCalendars key = (key, Resolved [])).
Proof.
  split; [|split; [|split]].
  - intros r. unfold MicrosoftOffice365Calendar.getAvailability, catch.
    match goal with |- context [match ?m key with _ => _ end] =>
      destruct (m key) as [k' [l|e]] end; cbn; intros H; inversion H; reflexivity.
  - intros r Htok.
    unfold MicrosoftOffice365Calendar.getAvailability, catch, bind at 1.
    destruct (o365Auth_getToken E c key) as [k' [tok|e]]; [discriminate|].
    reflexivity.
  - intros r Hexp Hsome Hbatch.
    unfold MicrosoftOffice365Calendar.getAvailability, catch, bind at 1.
    unfold o365Auth_getToken, bind at 1. unfold gets at 1. cbn beta iota.
    rewrite Hexp. cbn [negb]. unfold gets at 1. cbn beta iota.
    destruct (filterBoolean _) as [|i ids] eqn:Hids; [contradiction|].
    cbn [isEmpty andb]. run_sp. unfold andThen in Hbatch.
    destruct (batch (graph E) (access_token key) (i :: ids) _) as [response|e];
      cbn; [|reflexivity].
    rewrite Hbatch. reflexivity.
  - intros Hexp Hsel Hnone.
    unfold MicrosoftOffice365Calendar.getAvailability, catch, bind at 1.
    unfold o365Auth_getToken, bind at 1. unfold gets at 1. cbn beta iota.
    rewrite Hexp. cbn [negb]. unfold gets at 1. cbn beta iota.
    rewrite Hnone. cbn [isEmpty andb].
    destruct selectedCalendars; [contradiction|reflexivity].
Qed.

Lemma X16_witness :
  snd (MicrosoftOffice365Calendar.getAvailability
         (Sample.env Sample.googleUp Sample.graphRefreshRefused None)
         Sample.officeCredential "from" "to" [] Sample.key)
  = Rejected JsEmptyArray
  /\ MicrosoftOffice365Calendar.getAvailability Sample.envUp Sample.officeCredential
       "from" "to"
       [{| integration := Some "google_calendar"; externalId := Some "cal-1";
           primary := None; cal_name := None |}] Sample.freshToken
     = (Sample.freshToken, Resolved []).
Proof.
  split.
  - apply (proj1 (proj2 (X16_office_availability
                           (Sample.env Sample.googleUp Sample.graphRefreshRefused None)
                           Sample.officeCredential Sample.key "from" "to" []))
             (JsError "Bad Request")).
    reflexivity.
  - apply (proj2 (proj2 (proj2 (X16_office_availability Sample.envUp
                                  Sample.officeCredential
                                  Sample.freshToken "from" "to"
                                  [{| integration := Some "google_calendar";
                                      externalId := Some "cal-1";
                                      primary := None; cal_name := None |}])))).
    + reflexivity.
    + discriminate.
    + reflexivity.
Defined.

(** *** The adapter registry *)

Lemma calendars_cons (E : Env) (c : Credential) (l : list Credential) :
  CalendarClient.calendars E (c :: l) =
  CalendarClient.calendars E [c] ++ CalendarClient.calendars E l.
Proof.
  unfold CalendarClient.calendars. cbn [flat_map]. now rewrite app_nil_r.
Qed.

Lemma calendars_filter (E : Env) (creds : list Credential) :
  CalendarClient.calendars E (filter (hasAdapter E) creds) =
  CalendarClient.calendars E creds.
Proof.
  induction creds as [|c l IH]; [reflexivity|].
  cbn [filter]. rewrite (calendars_cons E c l).
  destruct (hasAdapter E c) eqn:Hk.
  - rewrite calendars_cons, IH. reflexivity.
  - rewrite IH. unfold hasAdapter in Hk.
    destruct (CalendarClient.calendars E [c]); [reflexivity|discriminate].
Qed.

(** X17. Credentials whose type has no calendar adapter (video credentials,
    retired integrations) take no part in the two fan-out queries: the busy
    times and the calendar list are those of the remaining credentials. *)
Theorem X17_fan_out_skips_unknown_types (E : Env) (creds : list Credential)
  (dateFrom dateTo : string) (selectedCalendars : list IntegrationCalendar) :
  CalendarClient.getBusyCalendarTimes E (filter (hasAdapter E) creds)
    dateFrom dateTo selectedCalendars =
  CalendarClient.getBusyCalendarTimes E creds dateFrom dateTo selectedCalendars
  /\ CalendarClient.listCalendars E (filter (hasAdapter E) creds) =
     CalendarClient.listCalendars E creds.
Proof.
  unfold CalendarClient.getBusyCalendarTimes, CalendarClient.listCalendars.
  rewrite calendars_filter. split; reflexivity.
Qed.

(** X18. The two registries agree: [calendars] returns, in credential order,
    exactly the adapters [getCalendarAdapterOrNull] finds, and the latter
    finds none precisely for a type other than the four calendar types. *)
Theorem X18_registries_agree (E : Env) (creds : list Credential) (c : Credential) :
  CalendarClient.calendars E creds =
    flat_map
      (fun cred =>
         match CalendarClient.getCalendarAdapterOrNull E cred with
         | Some a => [a]
         | None => []
         end)
      creds
  /\ (CalendarClient.getCalendarAdapterOrNull E c = None <->
      cred_type c <> "google_calendar"
      /\ cred_type c <> "office365_calendar"
      /\ cred_type c <> "caldav_calendar"
      /\ cred_type c <> "apple_calendar").
Proof.
  split.
  - unfold CalendarClient.calendars. apply flat_map_ext. intros cred.
    unfold CalendarClient.getCalendarAdapterOrNull.
    repeat (destruct (String.eqb _ _); [reflexivity|]). reflexivity.
  - unfold CalendarClient.getCalendarAdapterOrNull.
    destruct (String.eqb_spec (cred_type c) "google_calendar") as [H1|H1];
      [split; [discriminate|tauto]|].
    destruct (String.eqb_spec (cred_type c) "office365_calendar") as [H2|H2];
      [split; [discriminate|tauto]|].
    destruct (String.eqb_spec (cred_type c) "caldav_calendar") as [H3|H3];
      [split; [discriminate|tauto]|].
    destruct (String.eqb_spec (cred_type c) "apple_calendar") as [H4|H4];
      [split; [discriminate|tauto]|].
    tauto.
Qed.

(** *** Update results *)

Lemma mapLimit_types (E : Env) (noMail : option bool)
  (uidOf : Credential -> Nullable string) (cs : list Credential) :
  forall s ys,
    snd (mapLimit (fun c => CalendarClient.updateEvent E c noMail (uidOf c)) cs s)
      = Resolved ys ->
    map er_type ys = map cred_type cs.
Proof.
  induction cs as [|c rest IH]; intros s ys; cbn [mapLimit map].
  - intros H. inversion H. reflexivity.
  - pose proof (updateEvent_result E c noMail (uidOf c) s) as Hc.
    destruct (CalendarClient.updateEvent E c noMail (uidOf c) s) as [s1 p].
    cbn [snd] in Hc. specialize (IH s1).
    destruct (mapLimit _ rest s1) as [s2 ps]. cbn [snd] in *.
    destruct p as [y|e]; [|discriminate].
    destruct ps as [ys'|e]; [|discriminate].
    intros H. inversion H. cbn.
    destruct (Hc y eq_refl) as (_ & _ & _ & _ & Ht).
    rewrite Ht, (IH ys' eq_refl). reflexivity.
Qed.

(** X19. When an update for a location that is not a dedicated integration
    resolves, it returns one result per calendar credential of the manager, in
    credential order and each of its credential's type, whether or not the
    booking held a reference for that credential. *)
Theorem X19_update_one_result_per_calendar (E : Env) (this : EventManager.t)
  (rescheduleUid : string) (st : Store) (r : CreateUpdateResult) :
  truthyFlag (EventManager.isDedicatedFor (location (calEvent st))) = false ->
  outcome (EventManager.update E this rescheduleUid) st = Resolved r ->
  map er_type (results r) = map cred_type (EventManager.calendarCredentials this).
Proof.
  unfold outcome. intros Hd Hr.
  destruct (EventManager.update E this rescheduleUid st) as [st' p] eqn:Hc.
  cbn in Hr. subst p.
  unfold EventManager.update in Hc.
  apply bind_resolved in Hc. destruct Hc as ([] & s1 & H1 & Hc).
  unfold updateCalEvent, modify in H1. inversion H1. subst s1. clear H1.
  apply bind_resolved in Hc. destruct Hc as ([] & s2 & H2 & Hc).
  assert (s2 = {| calEvent := EventManager.processLocation E (calEvent st);
                  effects := effects st |}) as ->.
  { destruct (negb (truthyString rescheduleUid)); [discriminate|].
    unfold ret in H2. now inversion H2. }
  clear H2.
  apply bind_resolved in Hc. destruct Hc as (found & s3 & H3 & Hc).
  unfold await in H3. inversion H3. subst s3. clear H3.
  destruct found as [booking|]; [|discriminate].
  apply bind_resolved in Hc. destruct Hc as (evt & s4 & H4 & Hc).
  unfold gets in H4. inversion H4. subst s4 evt. clear H4. cbn [calEvent] in Hc.
  rewrite processLocation_location, Hd in Hc.
  apply bind_resolved in Hc. destruct Hc as (rs0 & s5 & H5 & Hc).
  apply bind_resolved in Hc. destruct Hc as (rs & s6 & H6 & Hc).
  apply bind_resolved in Hc. destruct Hc as ([] & s7 & _ & Hc).
  apply bind_resolved in Hc. destruct Hc as ([] & s8 & _ & Hc).
  apply bind_resolved in Hc. destruct Hc as ([] & s9 & _ & Hc).
  apply bind_resolved in Hc. destruct Hc as (done & s10 & _ & Hc).
  unfold ret in Hc. inversion Hc. subst st' r. clear Hc. cbn [results].
  apply bind_resolved in H6. destruct H6 as ([] & s11 & _ & H6).
  unfold ret in H6. inversion H6. subst s11 rs0. clear H6.
  unfold EventManager.updateAllCalendarEvents in H5.
  exact (mapLimit_types E _
           (fun credential =>
              match EventManager.referenceFor booking credential with
              | Some ref => Defined (ref_uid ref)
              | None => Undefined
              end)
           _ _ _ (f_equal snd H5)).
Qed.

Lemma X19_witness :
  map er_type
    (results
       {| results :=
            [updatedResult Sample.envUp Sample.googleCredential
               (Sample.store (Defined "Berlin")) true
               (Some (UpdatedData (Sample.providerEvent "google-1")));
             updatedResult Sample.envUp Sample.officeCredential
               (Sample.store (Defined "Berlin")) true
               (Some (UpdatedText "{}"))];
          referencesToCreate := references Sample.twoCalendarBooking |}) =
  map cred_type
    (EventManager.calendarCredentials
       (EventManager.constructor Sample.envUp
          [Sample.googleCredential; Sample.officeCredential])).
Proof.
  apply (X19_update_one_result_per_calendar
           (Sample.env Sample.googleUp Sample.graphUp
              (Some Sample.twoCalendarBooking))
           (EventManager.constructor Sample.envUp
              [Sample.googleCredential; Sample.officeCredential])
           "booking-uid" (Sample.store (Defined "Berlin"))).
  - reflexivity.
  - vm_compute. reflexivity.
Defined.

(** *** Classification of credentials *)

Lemma substring_all (s : string) : String.substring 0 (String.length s) s = s.
Proof.
  induction s as [|a s IH]; cbn; [reflexivity|]. now rewrite IH.
Qed.

Lemma substring_split (s : string) :
  forall a b, a + b = String.length s ->
  s = String.append (String.substring 0 a s) (String.substring a b s).
Proof.
  induction s as [|ch s IH]; intros a b Hab; cbn in Hab.
  - assert (a = 0) by lia. assert (b = 0) by lia. subst. reflexivity.
  - destruct a as [|a'].
    + cbn in Hab. subst b. cbn. now rewrite substring_all.
    + cbn. f_equal. apply IH. lia.
Qed.

Lemma endsWith_suffix (s suffix : string) :
  endsWith s suffix = true -> exists p, s = String.append p suffix.
Proof.
  unfold endsWith. intros H. apply andb_true_iff in H. destruct H as [Hle Heq].
  apply Nat.leb_le in Hle. apply String.eqb_eq in Heq.
  exists (String.substring 0 (String.length s - String.length suffix) s).
  rewrite <- Heq at 2. apply substring_split. lia.
Qed.

Lemma lastChar_append (p s : string) :
  s <> EmptyString -> lastChar (String.append p s) = lastChar s.
Proof.
  intros Hs. induction p as [|a p IH]; [reflexivity|].
  cbn [String.append lastChar]. rewrite IH.
  destruct (String.append p s) eqn:Hps; [|reflexivity].
  destruct p; cbn in Hps; [contradiction|discriminate].
Qed.

Lemma calendar_not_video (s : string) :
  endsWith s "_calendar" = true -> endsWith s "_video" = false.
Proof.
  intros Hc. destruct (endsWith s "_video") eqn:Hv; [|reflexivity].
  apply endsWith_suffix in Hc. apply endsWith_suffix in Hv.
  destruct Hc as [p Hp]. destruct Hv as [q Hq].
  assert (H1 : lastChar s = lastChar "_calendar")
    by (rewrite Hp; apply lastChar_append; discriminate).
  assert (H2 : lastChar s = lastChar "_video")
    by (rewrite Hq; apply lastChar_append; discriminate).
  rewrite H1 in H2. discriminate.
Qed.

(** X20. The manager sorts every credential it is given into at most one of
    its two lists: a calendar credential is one of the given credentials whose
    type ends in "_calendar", and it is never among the video credentials
    (the Daily stand-in credential, added when the Daily key is set, not being
    a calendar credential). *)
Theorem X20_constructor_classes (E : Env) (credentials : list Credential)
  (c : Credential) :
  endsWith (cred_type (FAKE_DAILY_CREDENTIAL (modules E))) "_calendar" = false ->
  In c (EventManager.calendarCredentials (EventManager.constructor E credentials)) ->
  In c credentials
  /\ endsWith (cred_type c) "_calendar" = true
  /\ ~ In c (EventManager.videoCredentials (EventManager.constructor E credentials)).
Proof.
  intros Hfake Hin. unfold EventManager.constructor in *. cbn in *.
  apply filter_In in Hin. destruct Hin as [Hin Hcal].
  split; [exact Hin|]. split; [exact Hcal|].
  intros Hvid.
  assert (Hv : In c (filter (fun cred => endsWith (cred_type cred) "_video")
                       credentials)
               \/ c = FAKE_DAILY_CREDENTIAL (modules E)).
  { destruct (DAILY_API_KEY (modules E)) as [k|]; [|now left].
    destruct (truthyString k); [|now left].
    apply in_app_or in Hvid. destruct Hvid as [H|[H|[]]]; auto. }
  destruct Hv as [Hv|Hv].
  - apply filter_In in Hv. destruct Hv as [_ Hv].
    rewrite (calendar_not_video _ Hcal) in Hv. discriminate.
  - subst c. rewrite Hfake in Hcal. discriminate.
Qed.

Lemma X20_witness :
  In Sample.googleCredential [Sample.zoomCredential; Sample.googleCredential]
  /\ endsWith (cred_type Sample.googleCredential) "_calendar" = true
  /\ ~ In Sample.googleCredential
         (EventManager.videoCredentials
            (EventManager.constructor Sample.envUp
               [Sample.zoomCredential; Sample.googleCredential])).
Proof.
  apply (X20_constructor_classes Sample.envUp
           [Sample.zoomCredential; Sample.googleCredential] Sample.googleCredential).
  - reflexivity.
  - left. reflexivity.
Defined.

(** *** The deletions of an update *)

Section Silent.

Variable P : Effect -> bool.

Lemma silent_ret {A} (a : A) : silent P (ret a).
Proof. intros st. reflexivity. Qed.

Lemma silent_reject {A} (r : Reason) : silent P (@reject Store A r).
Proof. intros st. reflexivity. Qed.

Lemma silent_await {A} (p : Promise A) : silent P (await p).
Proof. intros st. reflexivity. Qed.

Lemma silent_gets {A} (f : Store -> A) : silent P (gets f).
Proof. intros st. reflexivity. Qed.

Lemma silent_updateCalEvent (f : CalendarEvent -> CalendarEvent) :
  silent P (updateCalEvent f).
Proof. intros st. reflexivity. Qed.

Lemma silent_callAdapter {A} (a : Adapter.t) (op : SP OAuthKey A) :
  silent P (callAdapter a op).
Proof. intros st. reflexivity. Qed.

Lemma silent_emit (x : Effect) : P x = false -> silent P (emit x).
Proof.
  intros Hx st. unfold emit, modify. cbn. rewrite filter_app. cbn.
  rewrite Hx. now rewrite app_nil_r.
Qed.

Lemma silent_bind {A B} (m : SP Store A) (k : A -> SP Store B) :
  silent P m -> (forall a, silent P (k a)) -> silent P (bind m k).
Proof.
  intros Hm Hk st. unfold bind. specialize (Hm st).
  destruct (m st) as [s1 [a|r]]; cbn in *.
  - rewrite (Hk a s1). exact Hm.
  - exact Hm.
Qed.

Lemma silent_catch {A} (m : SP Store A) (h : Reason -> SP Store A) :
  silent P m -> (forall r, silent P (h r)) -> silent P (catch m h).
Proof.
  intros Hm Hh st. unfold catch. specialize (Hm st).
  destruct (m st) as [s1 [a|r]]; cbn in *.
  - exact Hm.
  - rewrite (Hh r s1). exact Hm.
Qed.

Lemma silent_mapLimit {A B} (f : A -> SP Store B) (xs : list A) :
  (forall x, silent P (f x)) -> silent P (mapLimit f xs).
Proof.
  intros Hf. induction xs as [|x rest IH]; intros st; cbn; [reflexivity|].
  specialize (Hf x st). destruct (f x st) as [s1 p]. cbn in Hf.
  specialize (IH s1). destruct (mapLimit f rest s1) as [s2 ps]. cbn in *.
  congruence.
Qed.

End Silent.

Ltac silence :=
  repeat first
    [ apply silent_ret | apply silent_reject | apply silent_await
    | apply silent_gets | apply silent_updateCalEvent | apply silent_callAdapter
    | apply silent_emit; reflexivity
    | apply silent_bind; [|intro]
    | apply silent_catch; [|intro]
    | apply silent_mapLimit; intro
    | match goal with
      | |- silent _ (match ?x with _ => _ end) => destruct x
      end ].

Lemma updateEvent_no_deletion (E : Env) (c : Credential) (noMail : option bool)
  (bookingRefUid : Nullable string) :
  silent isDeletion (CalendarClient.updateEvent E c noMail bookingRefUid).
Proof.
  unfold CalendarClient.updateEvent, trySendEmail.
  generalize (CalendarClient.calendars E [c]). intros adapters. silence.
Qed.

Lemma updateVideoEvent_no_deletion (E : Env) (this : EventManager.t)
  (booking : PartialBooking) :
  silent isDeletion (EventManager.updateVideoEvent E this booking).
Proof. unfold EventManager.updateVideoEvent. silence. Qed.

Lemma sendAttendeeMail_no_deletion (E : Env) (type : EventManager.MailType)
  (rs : list EventResult) :
  silent isDeletion (EventManager.sendAttendeeMail E type rs).
Proof. unfold EventManager.sendAttendeeMail, trySendEmail. silence. Qed.

(** X22. An update never issues only some of its deletions: either it issues
    none (it was rejected before the clean-up: missing uid, unknown booking,
    failed video dispatch), or the booking was found and all three deletions,
    references, attendees and booking, are issued together as the last outside
    calls of the request. *)
Theorem X22_update_deletions_together (E : Env) (this : EventManager.t)
  (rescheduleUid : string) (st : Store) :
  filter isDeletion (effects (storeAfter (EventManager.update E this rescheduleUid) st))
    = filter isDeletion (effects st)
  \/ exists before booking,
       booking_findFirst (prisma E) rescheduleUid = Resolved (Some booking)
       /\ effects (storeAfter (EventManager.update E this rescheduleUid) st) =
            before ++ [BookingReferenceDeleteMany (booking_id booking);
                       AttendeeDeleteMany (booking_id booking);
                       BookingDelete (booking_id booking)]
       /\ filter isDeletion before = filter isDeletion (effects st).
Proof.
  unfold storeAfter.
  remember (EventManager.update E this rescheduleUid st) as run eqn:Hrun.
  revert Hrun. unfold EventManager.update.
  unfold bind at 1. unfold updateCalEvent at 1, modify at 1. cbn beta iota.
  unfold bind at 1.
  destruct (negb (truthyString rescheduleUid)); [intros ->; left; reflexivity|].
  unfold ret at 1. cbn beta iota.
  unfold bind at 1. unfold await at 1.
  destruct (booking_findFirst (prisma E) rescheduleUid) as [[booking|]|r] eqn:Hb;
    try (intros ->; left; reflexivity).
  cbn beta iota.
  unfold bind at 1. unfold gets at 1. cbn beta iota.
  unfold bind at 1.
  match goal with |- context [EventManager.updateAllCalendarEvents ?a ?b ?c ?d ?s] =>
    pose proof (silent_mapLimit isDeletion
                  (fun credential =>
                     CalendarClient.updateEvent E credential d
                       match EventManager.referenceFor booking credential with
                       | Some ref => Defined (ref_uid ref)
                       | None => Undefined
                       end)
                  (EventManager.calendarCredentials this)
                  (fun x => updateEvent_no_deletion E x d _) s) as H1;
    change (filter isDeletion
              (effects (fst (EventManager.updateAllCalendarEvents a b c d s)))
            = filter isDeletion (effects s)) in H1;
    destruct (EventManager.updateAllCalendarEvents a b c d s) as [s5 [rs0|e]]
  end; cbn [fst effects] in H1; [|intros ->; left; exact H1].
  unfold bind at 1.
  match goal with |- context [(if ?t then ?m1 else ?m2) s5] =>
    assert (H2 : silent isDeletion (if t then m1 else m2));
      [|specialize (H2 s5); destruct ((if t then m1 else m2) s5) as [s6 [rs|e]]]
  end.
  { destruct (truthyFlag _).
    - apply silent_bind; [apply updateVideoEvent_no_deletion|]. intros rv.
      silence.
    - apply silent_bind; [apply sendAttendeeMail_no_deletion|]. intros; silence. }
  - intros ->. right. exists (effects s6), booking. cbn [fst effects] in H2.
    split; [reflexivity|]. split; [|congruence].
    unfold bind, emit, modify, await, ret. cbn.
    destruct (bookingReference_deleteMany (prisma E) (booking_id booking)),
      (attendee_deleteMany (prisma E) (booking_id booking)),
      (booking_delete (prisma E) (booking_id booking));
      cbn; rewrite <- ?app_assoc; reflexivity.
  - intros ->. left. cbn [fst effects] in *. congruence.
Qed.

(** *** Listed calendars *)

(** X23. Every calendar the Office365 or the Google adapter lists carries the
    adapter's integration type, an external id, a name and a primary flag:
    what the provider leaves out is filled in with a default. *)
Theorem X23_listed_calendars_complete (E : Env) (c : Credential) (key : OAuthKey)
  (cals : list IntegrationCalendar) :
  (snd (MicrosoftOffice365Calendar.listCalendars E c key) = Resolved cals ->
   Forall (completeCalendar "office365_calendar") cals)
  /\ (snd (GoogleCalendar.listCalendars E c key) = Resolved cals ->
      Forall (completeCalendar "google_calendar") cals).
Proof.
  split.
  - unfold MicrosoftOffice365Calendar.listCalendars, bind.
    destruct (o365Auth_getToken E c key) as [k1 [tok|r]]; [|discriminate].
    unfold await. destruct (me_calendars (graph E) tok) as [resp|r]; [|discriminate].
    destruct (handleErrorsJson resp) as [l|r]; [|discriminate].
    cbn. intros H. inversion H. apply Forall_forall. intros cal Hin.
    apply in_map_iff in Hin. destruct Hin as (x & <- & _).
    repeat split; cbn; discriminate.
  - unfold GoogleCalendar.listCalendars, bind.
    destruct (googleAuth_getToken E c key) as [k1 [client|r]]; [|discriminate].
    unfold catch, bind, await.
    destruct (calendarList_list (google E) client) as [[items|]|r]; cbn;
      intros H; inversion H; [|constructor].
    apply Forall_forall. intros cal Hin.
    apply in_map_iff in Hin. destruct Hin as (x & <- & _).
    repeat split; cbn; discriminate.
Qed.

Lemma X23_witness :
  Forall (completeCalendar "office365_calendar")
    [{| integration := Some "office365_calendar"; externalId := Some "No Id";
        primary := Some false; cal_name := Some "Work" |}].
Proof.
  apply (proj1 (X23_listed_calendars_complete
                  (Sample.env Sample.googleUp graphOneCalendar None)
                  Sample.officeCredential Sample.freshToken _)).
  reflexivity.
Defined.
